(** * Forward Collision Warning service: session and worker orchestration

    A shallow embedding of the orchestration core of the FCW service:

    - [CollisionWorker]: the per-session pipeline worker
      (fcw/service/collision_worker.py);
    - [Server]: the NetworkApplicationServer based interface
      (fcw-service/fcw_service/interface.py);
    - [Websocket]: the socketio based interface
      (fcw/service/interface.py).

    Python objects that are shared by reference (queues, worker threads)
    live in a heap indexed by allocation order; dictionaries are finite
    maps; the clock, the liveness of a thread and the result of a blocking
    queue read are inputs supplied by the environment.  Exceptions are
    explicit outcomes.  Floating point quantities (latencies, distances)
    are modelled by exact rationals. *)

From Stdlib Require Import QArith Qcanon.
From stdpp Require Import base numbers gmap list strings option pretty sorting.

Open Scope Z_scope.

(** * Python values, exceptions and outcomes *)

(** Exceptions deriving from Python's [Exception].  [Exception cls msg]
    stands for any exception raised by an external collaborator. *)
Inductive exn : Type :=
| KeyError (key : string)
| ZeroDivisionError
| ConnectionRefusedError (msg : string)
| Exception (cls msg : string).

Inductive outcome (A : Type) : Type :=
| Ok (a : A)
| Raise (e : exn).
Arguments Ok {A} a.
Arguments Raise {A} e.

#[global] Instance outcome_ret : MRet outcome := @Ok.
#[global] Instance outcome_bind : MBind outcome :=
  λ A B f m, match m with Ok a => f a | Raise e => Raise e end.

Definition raised {A} (o : outcome A) : option exn :=
  match o with Ok _ => None | Raise e => Some e end.

(** Scalar entries of the metadata dictionaries. *)
Inductive value : Type :=
| VInt (n : Z)
| VStr (s : string).

(** [d[k]] on a dictionary: [KeyError] when the key is missing. *)
Definition getitem (d : gmap string value) (k : string) : outcome value :=
  match d !! k with
  | Some v => Ok v
  | None => Raise (KeyError k)
  end.

(** * External collaborators

    Detector, tracker, collision guard and camera are outside the
    orchestration core; the worker only depends on this interface.  Every
    call may raise; the tracker and the guard are stateful and keep
    whatever state they reached when they raise. *)
Class Collaborators : Type := {
  Image : Type;
  Options : Type;
  no_options : Options;
  Detections : Type;
  Boxes : Type;
  Detector : Type;
  Sort : Type;
  ForwardCollisionGuard : Type;
  Camera : Type;
  KalmanBoxTracker : Type;
  RefPoints : Type;
  BBox : Type;
  DangerousObject : Type;
  Detector_from_dict : Options → outcome Detector;
  Sort_from_dict : Options → outcome Sort;
  Guard_from_dict : Options → outcome ForwardCollisionGuard;
  Camera_from_dict : Options → outcome Camera;
  set_dt : ForwardCollisionGuard → Qc → ForwardCollisionGuard;
  detect : Detector → Image → outcome Detections;
  detections_to_numpy : Detections → outcome Boxes;
  tracker_update : Sort → Boxes → Sort * outcome unit;
  trackers : Sort → list KalmanBoxTracker;
  min_hits : Sort → Z;
  id : KalmanBoxTracker → Z;
  hit_streak : KalmanBoxTracker → Z;
  time_since_update : KalmanBoxTracker → Z;
  get_state : KalmanBoxTracker → outcome BBox;
  get_reference_points : gmap Z KalmanBoxTracker → Camera → outcome RefPoints;
  guard_update : ForwardCollisionGuard → RefPoints → ForwardCollisionGuard * outcome unit;
  dangerous_objects : ForwardCollisionGuard → outcome (gmap Z DangerousObject);
  distance : ForwardCollisionGuard → DangerousObject → outcome Qc;
}.

(** * The pipeline worker (class CollisionWorker) *)
Module CollisionWorker.
Section Worker.
Context `{Collaborators}.

(** The thread object.  [image_queue] is a reference into the heap of
    queues; [started] records that [Thread.start] was called. *)
Record t : Type := mk {
  name : string;
  started : bool;
  stop_event : bool;
  image_queue : nat;
  frame_id : Z;
  latency_measurements : list Qc;
  detector : Detector;
  tracker : Sort;
  guard : ForwardCollisionGuard;
  camera : Camera;
}.

Definition set_started (b : bool) (w : t) : t :=
  mk (name w) b (stop_event w) (image_queue w) (frame_id w)
     (latency_measurements w) (detector w) (tracker w) (guard w) (camera w).
Definition set_stop_event (b : bool) (w : t) : t :=
  mk (name w) (started w) b (image_queue w) (frame_id w)
     (latency_measurements w) (detector w) (tracker w) (guard w) (camera w).
Definition set_frame_id (n : Z) (w : t) : t :=
  mk (name w) (started w) (stop_event w) (image_queue w) n
     (latency_measurements w) (detector w) (tracker w) (guard w) (camera w).
Definition set_tracker (s : Sort) (w : t) : t :=
  mk (name w) (started w) (stop_event w) (image_queue w) (frame_id w)
     (latency_measurements w) (detector w) s (guard w) (camera w).
Definition set_guard (g : ForwardCollisionGuard) (w : t) : t :=
  mk (name w) (started w) (stop_event w) (image_queue w) (frame_id w)
     (latency_measurements w) (detector w) (tracker w) g (camera w).

(** [config.get(key, {})] *)
Definition config_get (config : gmap string Options) (key : string) : Options :=
  default no_options (config !! key).

(** [__init__]: any collaborator may refuse its configuration, and
    [1 / fps] raises for [fps = 0]. *)
Definition init (image_queue : nat) (config : gmap string Options)
    (camera_config : Options) (fps : Qc) (name : string) : outcome t :=
  d ← Detector_from_dict (config_get config "detector");
  s ← Sort_from_dict (config_get config "tracker");
  g ← Guard_from_dict (config_get config "fcw");
  if decide (fps = 0%Qc) then Raise ZeroDivisionError
  else
    c ← Camera_from_dict camera_config;
    Ok (mk name false false image_queue 0 [] d s (set_dt g (1 / fps)%Qc) c).

Definition start (w : t) : t := set_started true w.

Definition stop (w : t) : t := set_stop_event true w.

(** The dict comprehension of [process_image]: trackers are inserted in
    list order under their id, a later one replacing an earlier one with
    the same id. *)
Definition tracked_objects_of (s : Sort) : gmap Z KalmanBoxTracker :=
  foldl (λ d t, <[id t := t]> d) ∅
    (filter (λ t, hit_streak t > min_hits s ∧ time_since_update t < 1) (trackers s)).

Definition process_image (w : t) (image : Image)
    : t * outcome (gmap Z KalmanBoxTracker) :=
  match detect (detector w) image with
  | Raise e => (w, Raise e)
  | Ok detections =>
    match detections_to_numpy detections with
    | Raise e => (w, Raise e)
    | Ok boxes =>
      let '(s, r) := tracker_update (tracker w) boxes in
      let w := set_tracker s w in
      match r with
      | Raise e => (w, Raise e)
      | Ok _ =>
        let tracked_objects := tracked_objects_of (tracker w) in
        match get_reference_points tracked_objects (camera w) with
        | Raise e => (w, Raise e)
        | Ok ref_points =>
          let '(g, r) := guard_update (guard w) ref_points in
          let w := set_guard g w in
          match r with
          | Raise e => (w, Raise e)
          | Ok _ => (w, Ok tracked_objects)
          end
        end
      end
    end
  end.

(** One entry of the ["detections"] dictionary of a result. *)
Record detection : Type := {
  bbox : BBox;
  dangerous_distance : Qc;
}.

(** The result envelope and its addressing. *)
Record result : Type := {
  timestamp : value;
  recv_timestamp : value;
  timestamp_before_process : value;
  timestamp_after_process : value;
  send_timestamp : Z;
  detections : gmap Z detection;
}.

Record emitted : Type := {
  event : string;
  data : result;
  namespace : string;
  to : value;
}.

(** What the environment supplies while one frame is handled: the three
    clock readings and the fate of the [sio.emit] call. *)
Record frame_env : Type := {
  t_before : Z;
  t_after : Z;
  t_send : Z;
  emit_raises : option exn;
}.

(** Body of the loop over [tracked_objects.items()]. *)
Definition detection_of (g : ForwardCollisionGuard)
    (dangerous : gmap Z DangerousObject) (item : Z * KalmanBoxTracker)
    : outcome (Z * detection) :=
  b ← get_state item.2;
  match dangerous !! item.1 with
  | Some o =>
      dist ← distance g o;
      Ok (item.1, {| bbox := b; dangerous_distance := dist |})
  | None => Ok (item.1, {| bbox := b; dangerous_distance := 0%Qc |})
  end.

(** The items of [tracked_objects] are visited in the order of the finite
    map; the order only decides which of several failing items raises. *)
Definition publish_results (w : t)
    (tracked_objects : option (gmap Z KalmanBoxTracker))
    (metadata : gmap string value) (env : frame_env)
    : list emitted * outcome unit :=
  match dangerous_objects (guard w) with
  | Raise e => ([], Raise e)
  | Ok dangerous =>
    match tracked_objects with
    | None => ([], Ok ())
    | Some tracked =>
      let message :=
        dets ← mapM (detection_of (guard w) dangerous) (map_to_list tracked);
        ts ← getitem metadata "timestamp";
        rts ← getitem metadata "recv_timestamp";
        tb ← getitem metadata "timestamp_before_process";
        ta ← getitem metadata "timestamp_after_process";
        dest ← getitem metadata "websocket_id";
        Ok {| event := "message";
              data := {| timestamp := ts;
                         recv_timestamp := rts;
                         timestamp_before_process := tb;
                         timestamp_after_process := ta;
                         send_timestamp := t_send env;
                         detections := list_to_map dets |};
              namespace := "/results";
              to := dest |} in
      match message with
      | Raise e => ([], Raise e)
      | Ok m =>
        match emit_raises env with
        | Some e => ([], Raise e)
        | None => ([m], Ok ())
        end
      end
    end
  end.

(** One pass through the body of the [while] loop of [run] for a frame
    taken from the queue.  The third component is the exception caught
    (and logged) by the [except Exception] clause, if any. *)
Definition iteration (w : t) (metadata : gmap string value) (image : Image)
    (env : frame_env) : t * list emitted * option exn :=
  let metadata := <["timestamp_before_process" := VInt (t_before env)]> metadata in
  let w := set_frame_id (frame_id w + 1) w in
  let '(w, r) := process_image w image in
  match r with
  | Raise e => (w, [], Some e)
  | Ok tracked =>
    let metadata := <["timestamp_after_process" := VInt (t_after env)]> metadata in
    let '(out, r) := publish_results w (Some tracked) metadata env in
    (w, out, raised r)
  end.

(** What can happen between two evaluations of the loop condition:
    [image_queue.get] times out, or delivers a frame, or another thread
    completes a call of [stop]. *)
Inductive input : Type :=
| QueueEmpty
| QueueItem (metadata : gmap string value) (image : Image) (env : frame_env)
| StopCalled.

(** [Polling]: the events are used up and the loop is still running. *)
Inductive status : Type := Stopped | Polling.

Fixpoint run (w : t) (events : list input) : t * list emitted * status :=
  if stop_event w then (w, [], Stopped)
  else
    match events with
    | [] => (w, [], Polling)
    | StopCalled :: rest => run (stop w) rest
    | QueueEmpty :: rest => run w rest
    | QueueItem metadata image env :: rest =>
        let '(w1, out, _) := iteration w metadata image env in
        let '(w2, out', s) := run w1 rest in
        (w2, out ++ out', s)
    end.

(** [raises w metadata image env e]: handling this frame in worker state
    [w], exception [e] is raised inside the [try] block of [run], by
    [process_image] or else by [publish_results]. *)
Definition raises (w : t) (metadata : gmap string value) (image : Image)
    (env : frame_env) (e : exn) : Prop :=
  let metadata := <["timestamp_before_process" := VInt (t_before env)]> metadata in
  let processed := process_image (set_frame_id (frame_id w + 1) w) image in
  match processed.2 with
  | Raise e' => e' = e
  | Ok tracked =>
      let metadata := <["timestamp_after_process" := VInt (t_after env)]> metadata in
      (publish_results processed.1 (Some tracked) metadata env).2 = Raise e
  end.

End Worker.
End CollisionWorker.

(** * State shared by the two interfaces *)

(** A frame waiting in a queue, with its metadata dictionary. *)
Definition item `{Collaborators} : Type := (gmap string value * Image)%type.

(** A [queue.Queue] object: its [maxsize] and the items it holds. *)
Record queue `{Collaborators} : Type := {
  maxsize : Z;
  items : list item;
}.

(** Control commands (era_5g_interface).  [OtherCmd] stands for every
    command type besides the two this code tests for. *)
Inductive ControlCmdType : Type :=
| INIT
| SET_STATE
| OtherCmd (tag : string).

#[global] Instance ControlCmdType_eq_dec : EqDecision ControlCmdType.
Proof. solve_decision. Defined.

(** The [data] dictionary of a command; a missing key is [None]. *)
Record arguments `{Collaborators} : Type := {
  arg_config : option (gmap string Options);
  arg_camera_config : option Options;
  arg_fps : option Qc;
  arg_viz : option bool;
  arg_viz_zmq_port : option Z;
  arg_h264 : option bool;
  arg_width : option Z;
  arg_height : option Z;
}.

Record ControlCommand `{Collaborators} : Type := {
  cmd_type : ControlCmdType;
  data : option arguments;
}.

(** One observation of the startup loop: the thread is alive, or it is
    not and the clock reads [now]. *)
Inductive poll : Type :=
| Alive
| NotAlive (now : Z).

(** The [while True] loop that follows [worker.start()]: [Some true] when
    the worker is seen alive, [Some false] when the clock passes
    [t0 + 5 * 1.0e9], [None] when the observations are used up with the
    loop still spinning. *)
Fixpoint await_alive (t0 : Z) (polls : list poll) : option bool :=
  match polls with
  | [] => None
  | Alive :: _ => Some true
  | NotAlive now :: rest =>
      if bool_decide (now > t0 + 5 * 1000000000) then Some false
      else await_alive t0 rest
  end.

(** [np.mean] of a non-empty list of samples. *)
Definition mean (samples : list Qc) : Qc :=
  (foldr Qcplus 0 samples / Q2Qc (inject_Z (Z.of_nat (length samples))))%Qc.

(** The arguments of [send_middleware_heart_beat]. *)
Record heart_beat_report : Type := {
  avg_latency : Qc;
  queue_size : Z;
  queue_occupancy : Z;
  current_robot_count : nat;
}.

(** * fcw_service/interface.py: class Server *)
Module Server.

(** What the class takes from its base class NetworkApplicationServer,
    from era_5g_interface and from the environment. *)
Class Base `{Collaborators} : Type := {
  NETAPP_INPUT_QUEUE : Z;
  DATA_NAMESPACE : string;
  DATA_ERROR_EVENT : string;
  eio_sid_from_sid : string → string → string;
  get_eio_sid_of_control : string → string;
  get_eio_sid_of_data : string → string;
  get_sid_of_data : string → string;
  (** [TaskHandlerInternalQ.store_data] on the queue of the task *)
  store_data : queue → item → queue;
  (** constructor of fcw_service.collision_worker.CollisionWorker, called
      with the queue, the configuration, the camera configuration, fps,
      viz, viz_zmq_port and the thread name; its objects are taken to
      carry the state of the workers of fcw/service/collision_worker.py *)
  new_worker : nat → gmap string Options → Options → Qc → bool → Z → string
               → outcome CollisionWorker.t;
  repr : exn → string;
  str : option ControlCommand → string;
}.

Section Server.
Context `{Base}.

Record TaskHandlerInternalQ : Type := {
  q : nat;
}.

Record TaskAndWorker : Type := {
  task : TaskHandlerInternalQ;
  worker : nat;
}.

(** Calls into the transport made by the server. *)
Inductive sent : Type :=
| send_data (data : gmap string value) (event : string) (sid : string)
| send_command_error (message : string) (sid : string).

(** [tasks] is the registry; [queues] and [workers] hold every queue and
    worker object constructed so far; [outbox] lists the calls into the
    transport, oldest first. *)
Record state : Type := mk {
  tasks : gmap string TaskAndWorker;
  queues : list queue;
  workers : list CollisionWorker.t;
  outbox : list sent;
}.

Definition send (m : sent) (st : state) : state :=
  mk (tasks st) (queues st) (workers st) (outbox st ++ [m]).

Definition heart_beat (st : state) : heart_beat_report :=
  let latencies :=
    concat ((λ task_and_worker,
               from_option CollisionWorker.latency_measurements []
                 (workers st !! worker task_and_worker))
            <$> (map_to_list (tasks st)).*2) in
  let avg_latency :=
    if bool_decide (0 < length latencies)%nat then mean latencies else 0%Qc in
  let queue_size := NETAPP_INPUT_QUEUE in
  let queue_occupancy := 1 in
  {| avg_latency := avg_latency;
     queue_size := queue_size;
     queue_occupancy := queue_occupancy;
     current_robot_count := size (tasks st) |}.

(** The [data] dictionary of an image message. *)
Record image_data : Type := {
  data_timestamp : option Z;
  data_frame : option Image;
}.

Definition image_callback (st : state) (sid : string) (data : image_data)
    (now : Z) : state * outcome unit :=
  let eio_sid := eio_sid_from_sid sid DATA_NAMESPACE in
  match tasks st !! eio_sid with
  | None =>
      (send (send_data {["message" := VStr "Non-registered client tried to send data"]}
               DATA_ERROR_EVENT sid) st,
       Ok ())
  | Some task_and_worker =>
      let task := task task_and_worker in
      match data_timestamp data with
      | None => (st, Raise (KeyError "timestamp"))
      | Some timestamp =>
        match data_frame data with
        | None => (st, Raise (KeyError "frame"))
        | Some frame =>
            let metadata : gmap string value :=
              <["recv_timestamp" := VInt now]> {["timestamp" := VInt timestamp]} in
            (mk (tasks st)
                (alter (λ qu, store_data qu (metadata, frame)) (q task) (queues st))
                (workers st) (outbox st),
             Ok ())
        end
      end
  end.

Definition applied (eio_sid sid : string) (command : option ControlCommand) : string :=
  "Control command applied, eio_sid " +:+ eio_sid +:+ ", sid " +:+ sid
    +:+ ", results sid " +:+ get_sid_of_data eio_sid
    +:+ ", command " +:+ str command.

(** [None]: the call is still inside the startup loop when the
    observations [polls] are used up. *)
Definition command_callback (st : state) (command : option ControlCommand)
    (sid : string) (t0 : Z) (polls : list poll) : option (state * (bool * string)) :=
  let eio_sid := get_eio_sid_of_control sid in
  match command with
  | Some c =>
    if decide (cmd_type c = INIT) then
      if decide (is_Some (tasks st !! eio_sid)) then
        Some (send (send_command_error "Initialization has already been called before" sid) st,
              (false, "Initialization has already been called before"))
      else
        let args := data c in
        let config := default ∅ (args ≫= arg_config) in
        let camera_config := default no_options (args ≫= arg_camera_config) in
        let fps := default (Q2Qc 30) (args ≫= arg_fps) in
        let viz := default true (args ≫= arg_viz) in
        let viz_zmq_port := default 5558 (args ≫= arg_viz_zmq_port) in
        let image_queue := length (queues st) in
        let st := mk (tasks st)
                     (queues st ++ [{| maxsize := NETAPP_INPUT_QUEUE; items := [] |}])
                     (workers st) (outbox st) in
        let task := {| q := image_queue |} in
        match new_worker image_queue config camera_config fps viz viz_zmq_port
                ("Collision Worker " +:+ eio_sid) with
        | Raise ex =>
            Some (send (send_command_error
                          ("Failed to create CollisionWorker: " +:+ repr ex) sid) st,
                  (false, "Failed to create CollisionWorker: " +:+ repr ex))
        | Ok w =>
            let worker := length (workers st) in
            let st := mk (<[eio_sid := {| task := task; worker := worker |}]> (tasks st))
                         (queues st) (workers st ++ [w]) (outbox st) in
            let st := mk (tasks st) (queues st)
                         (alter CollisionWorker.start worker (workers st)) (outbox st) in
            match await_alive t0 polls with
            | None => None
            | Some false => Some (st, (false, "Timed out to start worker"))
            | Some true => Some (st, (true, applied eio_sid sid command))
            end
        end
    else Some (st, (true, applied eio_sid sid command))
  | None => Some (st, (true, applied eio_sid sid command))
  end.

(** [worker.join()] waits until the stopped worker has left [run]; the
    stopped object stays in the heap. *)
Definition disconnect_callback (st : state) (sid : string) : state :=
  let eio_sid := get_eio_sid_of_data sid in
  match tasks st !! eio_sid with
  | Some task_and_worker =>
      mk (delete eio_sid (tasks st)) (queues st)
         (alter CollisionWorker.stop (worker task_and_worker) (workers st))
         (outbox st)
  | None => st
  end.

End Server.
End Server.

(** * fcw/service/interface.py: the socketio handlers *)
Module Websocket.

(** What the module takes from socketio, era_5g_interface and the
    environment.  [decode_image] is [base64.b64decode] followed by
    [cv2.imdecode]. *)
Class Base `{Collaborators} : Type := {
  NETAPP_INPUT_QUEUE : Z;
  Frame : Type;
  H264Decoder : Type;
  new_H264Decoder : Qc → Z → Z → H264Decoder;
  decode_packet_data : H264Decoder → Frame → outcome Image;
  decode_image : Frame → outcome Image;
  eio_sid_from_sid : string → string → string;
  sid_from_eio_sid : string → string → string;
  (** [TaskHandlerInternalQ.store_image] on the queue of the task *)
  store_image : queue → item → queue;
  str : exn → string;
}.

Section Websocket.
Context `{Base}.

Record TaskHandlerInternalQ : Type := {
  sid : string;
  q : nat;
  decoder : option H264Decoder;
}.

Record TaskAndWorker : Type := {
  task : TaskHandlerInternalQ;
  worker : nat;
}.

(** One [sio.emit] call of a handler. *)
Record emitted : Type := {
  event : string;
  payload : gmap string value;
  namespace : string;
  to : string;
}.

(** [tasks] and [last_timestamp] are the module globals; [queues] and
    [workers] hold every queue and worker object constructed so far;
    [outbox] lists the emissions of the handlers, oldest first. *)
Record state : Type := mk {
  tasks : gmap string TaskAndWorker;
  last_timestamp : Z;
  queues : list queue;
  workers : list CollisionWorker.t;
  outbox : list emitted;
}.

Definition emit (m : emitted) (st : state) : state :=
  mk (tasks st) (last_timestamp st) (queues st) (workers st) (outbox st ++ [m]).

(** The report of one tick; the function then arms the timer for the
    next tick. *)
Definition heart_beat_timer (st : state) : heart_beat_report :=
  let latencies :=
    concat ((λ task_and_worker,
               from_option CollisionWorker.latency_measurements []
                 (workers st !! worker task_and_worker))
            <$> (map_to_list (tasks st)).*2) in
  let avg_latency :=
    if bool_decide (0 < length latencies)%nat then mean latencies else 0%Qc in
  let queue_size := 1 in
  let queue_occupancy := 1 in
  {| avg_latency := avg_latency;
     queue_size := queue_size;
     queue_occupancy := queue_occupancy;
     current_robot_count := size (tasks st) |}.

(** The [data] dictionary of an image message. *)
Record image_data : Type := {
  data_timestamp : option Z;
  data_frame : option Frame;
}.

Definition image_error (timestamp : Z) (error : string) (sid : string) : emitted :=
  {| event := "image_error";
     payload := <["error" := VStr error]> {["timestamp" := VInt timestamp]};
     namespace := "/data";
     to := sid |}.

Definition older_timestamp (timestamp last_timestamp : Z) : string :=
  "Received frame with older timestamp: " +:+ pretty timestamp
    +:+ ", last_timestamp: " +:+ pretty last_timestamp
    +:+ ", diff: " +:+ pretty (timestamp - last_timestamp).

Definition image_callback_websocket (st : state) (sid : string)
    (data : image_data) (now : Z) : state :=
  let timestamp := default 0 (data_timestamp data) in
  let eio_sid := eio_sid_from_sid sid "/data" in
  match tasks st !! eio_sid with
  | None => emit (image_error timestamp "Not connected" sid) st
  | Some task_and_worker =>
    match data_frame data with
    | None => emit (image_error timestamp "Data does not contain frame." sid) st
    | Some frame =>
      if bool_decide (timestamp - last_timestamp st < 0) then
        emit (image_error timestamp
                (older_timestamp timestamp (last_timestamp st)) sid) st
      else
        let st := mk (tasks st) timestamp (queues st) (workers st) (outbox st) in
        let task := task task_and_worker in
        let decoded :=
          match decoder task with
          | Some d => decode_packet_data d frame
          | None => decode_image frame
          end in
        match decoded with
        | Raise error =>
            emit (image_error timestamp
                    ("Failed to decode frame data: " +:+ str error) sid) st
        | Ok image =>
            let metadata : gmap string value :=
              <["websocket_id" :=
                  VStr (sid_from_eio_sid (eio_sid_from_sid sid "/data") "/results")]>
              (<["recv_timestamp" := VInt now]>
               (<["timestamp" := VInt timestamp]>
                {["sid" := VStr eio_sid]})) in
            mk (tasks st) (last_timestamp st)
               (alter (λ qu, store_image qu (metadata, image)) (q task) (queues st))
               (workers st) (outbox st)
        end
    end
  end.

(** [command] is the outcome of building the ControlCommand from the
    received dictionary.  [None]: the
    call is still inside the startup loop when the observations [polls]
    are used up. *)
Definition command_callback_websocket (st : state) (sid : string)
    (command : outcome ControlCommand) (t0 : Z) (polls : list poll)
    : option (state * outcome unit) :=
  match command with
  | Raise e => Some (st, Raise e)
  | Ok command =>
    if decide (cmd_type command = SET_STATE) then
      let args := data command in
      let h264 := default false (args ≫= arg_h264) in
      let config := default ∅ (args ≫= arg_config) in
      let camera_config := default no_options (args ≫= arg_camera_config) in
      let fps := default (Q2Qc 30) (args ≫= arg_fps) in
      let width := default 0 (args ≫= arg_width) in
      let height := default 0 (args ≫= arg_height) in
      let image_queue := length (queues st) in
      let st := mk (tasks st) (last_timestamp st)
                   (queues st ++ [{| maxsize := NETAPP_INPUT_QUEUE; items := [] |}])
                   (workers st) (outbox st) in
      let eio_sid := eio_sid_from_sid sid "/control" in
      let task :=
        {| sid := eio_sid;
           q := image_queue;
           decoder := if h264 then Some (new_H264Decoder fps width height) else None |} in
      match CollisionWorker.init image_queue config camera_config fps
              ("Detector " +:+ eio_sid) with
      | Raise e => Some (st, Raise e)
      | Ok w =>
          let worker := length (workers st) in
          let st := mk (<[eio_sid := {| task := task; worker := worker |}]> (tasks st))
                       (last_timestamp st) (queues st) (workers st ++ [w]) (outbox st) in
          let st := mk (tasks st) (last_timestamp st) (queues st)
                       (alter CollisionWorker.start worker (workers st)) (outbox st) in
          match await_alive t0 polls with
          | None => None
          | Some false =>
              Some (st, Raise (ConnectionRefusedError "Timed out to start worker."))
          | Some true => Some (st, Ok ())
          end
      end
    else Some (st, Ok ())
  end.

(** [worker.join()] waits until the stopped worker has left [run]; the
    stopped object stays in the heap. *)
Definition disconnect_data (st : state) (sid : string) : state :=
  let eio_sid := eio_sid_from_sid sid "/data" in
  match tasks st !! eio_sid with
  | Some task_and_worker =>
      mk (delete eio_sid (tasks st)) (last_timestamp st) (queues st)
         (alter CollisionWorker.stop (worker task_and_worker) (workers st))
         (outbox st)
  | None => st
  end.

(** [image_queue.get] in the worker that reads queue [i]: the oldest
    item leaves the queue. *)
Definition queue_get (st : state) (i : nat) : state :=
  mk (tasks st) (last_timestamp st)
     (alter (λ qu, {| maxsize := maxsize qu; items := tail (items qu) |}) i (queues st))
     (workers st) (outbox st).

(** The module as a transition system: a handler runs to completion, or
    a worker takes an item from its queue. *)
Inductive call : Type :=
| image (sid : string) (data : image_data) (now : Z)
| command (sid : string) (command : outcome ControlCommand) (t0 : Z) (polls : list poll)
| disconnect (sid : string)
| worker_get (i : nat).

Definition handle (st : state) (c : call) : option state :=
  match c with
  | image sid data now => Some (image_callback_websocket st sid data now)
  | command sid cmd t0 polls => fst <$> command_callback_websocket st sid cmd t0 polls
  | disconnect sid => Some (disconnect_data st sid)
  | worker_get i => Some (queue_get st i)
  end.

Definition step (st st' : state) : Prop := ∃ c, handle st c = Some st'.

End Websocket.
End Websocket.

(** * A concrete instantiation of the environment

    Small stand-ins for the external collaborators and for the transport,
    on which the model can be run. *)
Module Demo.

Record track : Type := {
  track_id : Z;
  track_hit_streak : Z;
  track_time_since_update : Z;
}.

(** A frame is described by the tracks the tracker holds once it has
    seen the frame; the empty frame is refused by the detector; the
    options of the tracker are its [min_hits]. *)
Definition collaborators : Collaborators := {|
  Image := list track;
  Options := Z;
  no_options := 3;
  Detections := list track;
  Boxes := list track;
  Detector := unit;
  Sort := Z * list track;
  ForwardCollisionGuard := Qc;
  Camera := unit;
  KalmanBoxTracker := track;
  RefPoints := list Z;
  BBox := Z;
  DangerousObject := Qc;
  Detector_from_dict := λ _, Ok ();
  Sort_from_dict := λ o,
    if bool_decide (o < 0) then Raise (Exception "ValueError" "min_hits")
    else Ok (o, []);
  Guard_from_dict := λ _, Ok 0%Qc;
  Camera_from_dict := λ _, Ok ();
  set_dt := λ _ dt, dt;
  detect := λ _ image,
    match image with
    | [] => Raise (Exception "ValueError" "empty image")
    | _ => Ok image
    end;
  detections_to_numpy := λ d, Ok d;
  tracker_update := λ s boxes, ((s.1, boxes), Ok ());
  trackers := λ s, s.2;
  min_hits := λ s, s.1;
  id := track_id;
  hit_streak := track_hit_streak;
  time_since_update := track_time_since_update;
  get_state := λ t, Ok (track_id t);
  get_reference_points := λ m _, Ok ((map_to_list m).*1);
  guard_update := λ g _, (g, Ok ());
  dangerous_objects := λ _, Ok ∅;
  distance := λ _ o, Ok o;
|}.

(** Modelled from the spec: [enqueue] of the bounded frame channel, the
    library method behind [store_data] and [store_image]; it appends
    when the queue is below its capacity and drops the frame otherwise
    (a capacity of zero or less is unbounded, as for [queue.Queue]). *)
Definition enqueue (qu : @queue collaborators) (x : @item collaborators)
    : @queue collaborators :=
  if bool_decide (maxsize qu ≤ 0 ∨ Z.of_nat (length (items qu)) < maxsize qu)
  then {| maxsize := maxsize qu; items := items qu ++ [x] |}
  else qu.

Definition str_exn (e : exn) : string :=
  match e with
  | KeyError key => key
  | ZeroDivisionError => "division by zero"
  | ConnectionRefusedError msg => msg
  | Exception _ msg => msg
  end.

(** Workers are built by the constructor of
    fcw/service/collision_worker.py, the visualization arguments being
    ignored. *)
Definition server (capacity : Z) : @Server.Base collaborators := {|
  Server.NETAPP_INPUT_QUEUE := capacity;
  Server.DATA_NAMESPACE := "/data";
  Server.DATA_ERROR_EVENT := "data_error";
  Server.eio_sid_from_sid := λ sid _, sid;
  Server.get_eio_sid_of_control := λ sid, sid;
  Server.get_eio_sid_of_data := λ sid, sid;
  Server.get_sid_of_data := λ eio_sid, eio_sid;
  Server.store_data := enqueue;
  Server.new_worker := λ image_queue config camera_config fps _ _ name,
    @CollisionWorker.init collaborators image_queue config camera_config fps name;
  Server.repr := str_exn;
  Server.str := λ _, "command";
|}.

Definition websocket (capacity : Z) : @Websocket.Base collaborators := {|
  Websocket.NETAPP_INPUT_QUEUE := capacity;
  Websocket.Frame := list track;
  Websocket.H264Decoder := unit;
  Websocket.new_H264Decoder := λ _ _ _, ();
  Websocket.decode_packet_data := λ _ frame, @Ok (@Image collaborators) frame;
  Websocket.decode_image := λ frame, @Ok (@Image collaborators) frame;
  Websocket.eio_sid_from_sid := λ sid _, sid;
  Websocket.sid_from_eio_sid := λ eio_sid _, eio_sid;
  Websocket.store_image := enqueue;
  Websocket.str := str_exn;
|}.

(** A worker as [__init__] leaves it, with default configuration. *)
Definition worker (image_queue : nat) (name : string)
    : @CollisionWorker.t collaborators :=
  @CollisionWorker.mk collaborators name false false image_queue 0 [] () (3, []) 0%Qc ().

Definition with_latencies (l : list Qc) (w : @CollisionWorker.t collaborators)
    : @CollisionWorker.t collaborators :=
  @CollisionWorker.mk collaborators
    (CollisionWorker.name w) (CollisionWorker.started w)
    (CollisionWorker.stop_event w) (CollisionWorker.image_queue w)
    (CollisionWorker.frame_id w) l
    (CollisionWorker.detector w) (CollisionWorker.tracker w)
    (CollisionWorker.guard w) (CollisionWorker.camera w).

Definition metadata (timestamp now : Z) (to : string) : gmap string value :=
  <["websocket_id" := VStr to]>
    (<["recv_timestamp" := VInt now]> {["timestamp" := VInt timestamp]}).

Definition INIT_command : @ControlCommand collaborators :=
  {| cmd_type := INIT; data := None |}.

Definition SET_STATE_command : @ControlCommand collaborators :=
  {| cmd_type := SET_STATE; data := None |}.

Definition car : track :=
  {| track_id := 7; track_hit_streak := 5; track_time_since_update := 0 |}.



Definition server_start : @Server.state collaborators :=
  @Server.mk collaborators ∅ [] [] [].

Definition websocket_start (capacity : Z)
    : @Websocket.state collaborators (websocket capacity) :=
  @Websocket.mk collaborators (websocket capacity) ∅ 0 [] [] [].

(** A server with session S1, whose worker recorded [l1], and session
    S2, whose worker recorded [l2]. *)
Definition server_two (capacity : Z) (l1 l2 : list Qc) : @Server.state collaborators :=
  @Server.mk collaborators
    (<["S2" := {| Server.task := {| Server.q := 1%nat |}; Server.worker := 1%nat |}]>
       {["S1" := {| Server.task := {| Server.q := 0%nat |}; Server.worker := 0%nat |}]})
    [{| maxsize := capacity; items := [] |}; {| maxsize := capacity; items := [] |}]
    [with_latencies l1 (CollisionWorker.start (worker 0 "Collision Worker S1"));
     with_latencies l2 (CollisionWorker.start (worker 1 "Collision Worker S2"))]
    [].

Definition websocket_two (capacity : Z) (l1 l2 : list Qc)
    : @Websocket.state collaborators (websocket capacity) :=
  @Websocket.mk collaborators (websocket capacity)
    (<["S2" := {| Websocket.task :=
                    {| Websocket.sid := "S2"; Websocket.q := 1%nat;
                       Websocket.decoder := None |};
                  Websocket.worker := 1%nat |}]>
       {["S1" := {| Websocket.task :=
                      {| Websocket.sid := "S1"; Websocket.q := 0%nat;
                         Websocket.decoder := None |};
                    Websocket.worker := 0%nat |}]})
    0
    [{| maxsize := capacity; items := [] |}; {| maxsize := capacity; items := [] |}]
    [with_latencies l1 (CollisionWorker.start (worker 0 "Detector S1"));
     with_latencies l2 (CollisionWorker.start (worker 1 "Detector S2"))]
    [].

(** A track that has not been confirmed yet, and one that was not seen
    in the current frame. *)
Definition nascent : track :=
  {| track_id := 8; track_hit_streak := 1; track_time_since_update := 0 |}.

Definition lost : track :=
  {| track_id := 9; track_hit_streak := 6; track_time_since_update := 2 |}.

(** Three frames: one the detector refuses, one showing only [car],
    one showing all three tracks. *)
Definition blank : @Image collaborators := [].
Definition road : @Image collaborators := [car].
Definition street : @Image collaborators := [car; nascent; lost].

(** The timestamps of the frames waiting in a queue, oldest first. *)
Definition timestamps (qu : @queue collaborators) : list (option value) :=
  (λ it : @item collaborators, it.1 !! "timestamp") <$> items qu.

Definition env (emit_raises : option exn) : CollisionWorker.frame_env :=
  {| CollisionWorker.t_before := 1;
     CollisionWorker.t_after := 2;
     CollisionWorker.t_send := 3;
     CollisionWorker.emit_raises := emit_raises |}.

End Demo.

(** * The interfaces as transition systems *)
Module Sessions.

Section OfServer.
Context `{Server.Base}.

(** The state [Server.__init__] leaves: an empty registry. *)
Definition server_start : Server.state := Server.mk ∅ [] [] [].

(** [image_queue.get] in the worker that reads queue [i]. *)
Definition server_queue_get (st : Server.state) (i : nat) : Server.state :=
  Server.mk (Server.tasks st)
    (alter (λ qu, {| maxsize := maxsize qu; items := tail (items qu) |}) i (Server.queues st))
    (Server.workers st) (Server.outbox st).

(** A callback of class Server runs to completion, or a worker takes an
    item from its queue. *)
Inductive server_call : Type :=
| server_image (sid : string) (data : Server.image_data) (now : Z)
| server_command (command : option ControlCommand) (sid : string) (t0 : Z)
    (polls : list poll)
| server_disconnect (sid : string)
| server_worker_get (i : nat).

Definition server_handle (st : Server.state) (c : server_call) : option Server.state :=
  match c with
  | server_image sid data now => Some (Server.image_callback st sid data now).1
  | server_command command sid t0 polls =>
      fst <$> Server.command_callback st command sid t0 polls
  | server_disconnect sid => Some (Server.disconnect_callback st sid)
  | server_worker_get i => Some (server_queue_get st i)
  end.

Definition server_step (st st' : Server.state) : Prop :=
  ∃ c, server_handle st c = Some st'.

(** Every session of the registry refers to a queue and to a started
    worker that exist, and no two sessions refer to the same queue or to
    the same worker. *)
Definition server_sound (st : Server.state) : Prop :=
  (∀ sid e, Server.tasks st !! sid = Some e →
     (Server.q (Server.task e) < length (Server.queues st))%nat ∧
     ∃ w, Server.workers st !! Server.worker e = Some w ∧
          CollisionWorker.started w = true) ∧
  (∀ sid1 sid2 e1 e2,
     Server.tasks st !! sid1 = Some e1 → Server.tasks st !! sid2 = Some e2 →
     sid1 ≠ sid2 →
     Server.q (Server.task e1) ≠ Server.q (Server.task e2) ∧
     Server.worker e1 ≠ Server.worker e2).

End OfServer.

Section OfWebsocket.
Context `{Websocket.Base}.

(** The module globals as the module body leaves them. *)
Definition websocket_start : Websocket.state := Websocket.mk ∅ 0 [] [] [].

(** Every session of the registry has a task carrying its id and refers
    to a queue that exists and to a worker that exists, reads that very
    queue, has been started and has not been told to stop; no two
    sessions refer to the same queue or to the same worker. *)
Definition websocket_sound (st : Websocket.state) : Prop :=
  (∀ sid e, Websocket.tasks st !! sid = Some e →
     Websocket.sid (Websocket.task e) = sid ∧
     (Websocket.q (Websocket.task e) < length (Websocket.queues st))%nat ∧
     ∃ w, Websocket.workers st !! Websocket.worker e = Some w ∧
          CollisionWorker.image_queue w = Websocket.q (Websocket.task e) ∧
          CollisionWorker.started w = true ∧
          CollisionWorker.stop_event w = false) ∧
  (∀ sid1 sid2 e1 e2,
     Websocket.tasks st !! sid1 = Some e1 → Websocket.tasks st !! sid2 = Some e2 →
     sid1 ≠ sid2 →
     Websocket.q (Websocket.task e1) ≠ Websocket.q (Websocket.task e2) ∧
     Websocket.worker e1 ≠ Websocket.worker e2).

End OfWebsocket.
End Sessions.

(** * fcw_client/client_common.py *)
Module Client.

(** Module constants. *)
Definition DEBUG_PRINT_WARNING : bool := true.
Definition DEBUG_PRINT_DELAY : bool := true.

(** What the logger is given, before numbers are scaled to seconds and
    formatted. *)
Inductive log_line : Type :=
| Separator
| NoResultsData
| SendFrames (sent dropped : Z)
| Delay (median mean : Qc) (min max : Z)
| DangerousDistance (score : Qc) (tracked_id : value)
| ResultNumber (number : nat) (delay : Z).

(** ** class ResultsReader *)

Record ResultsReader : Type := mk_reader {
  delays : list Z;
  delays_recv : list Z;
  delays_send : list Z;
  timestamps : list (list value);
  out_csv_dir : option string;
  out_prefix : option string;
}.

Definition header : list value :=
  [VStr "start_timestamp_ns"; VStr "recv_timestamp_ns";
   VStr "send_timestamp_ns"; VStr "end_timestamp_ns"].

(** [__init__] *)
Definition new_reader (out_csv_dir out_prefix : option string) : ResultsReader :=
  mk_reader [] [] [] [header] out_csv_dir out_prefix.

(** A results dictionary as it arrives: each key may be missing, and so
    may the "dangerous_distance" of a detection. *)
Record results : Type := {
  r_detections : option (list (value * option Qc));
  r_timestamp : option Z;
  r_recv_timestamp : option Z;
  r_send_timestamp : option Z;
}.

(** The loop over [results["detections"].items()]: the lines logged up
    to the first detection without distance, where KeyError ends it. *)
Fixpoint warn (detections : list (value * option Qc)) : list log_line * outcome unit :=
  match detections with
  | [] => ([], Ok ())
  | (tracked_id, None) :: _ => ([], Raise (KeyError "dangerous_distance"))
  | (tracked_id, Some score) :: rest =>
      let '(lines, r) := warn rest in
      ((if bool_decide (0 < score)%Qc then [DangerousDistance score tracked_id] else [])
         ++ lines, r)
  end.

(** [results_timestamp] is the clock reading taken on entry. *)
Definition get_results (self : ResultsReader) (results : results) (results_timestamp : Z)
    : ResultsReader * list log_line * outcome unit :=
  let '(lines, r) :=
    match r_detections results with
    | Some detections =>
        if DEBUG_PRINT_WARNING then warn detections else ([], Ok ())
    | None => ([], Ok ())
    end in
  match r with
  | Raise e => (self, lines, Raise e)
  | Ok _ =>
    match r_timestamp results with
    | None => (self, lines, Ok ())
    | Some timestamp =>
      match r_recv_timestamp results with
      | None => (self, lines, Raise (KeyError "recv_timestamp"))
      | Some recv_timestamp =>
        match r_send_timestamp results with
        | None => (self, lines, Raise (KeyError "send_timestamp"))
        | Some send_timestamp =>
          let row := [VInt timestamp; VInt recv_timestamp; VInt send_timestamp;
                      VInt results_timestamp] in
          if DEBUG_PRINT_DELAY then
            (mk_reader (delays self ++ [results_timestamp - timestamp])
               (delays_recv self ++ [recv_timestamp - timestamp])
               (delays_send self ++ [send_timestamp - timestamp])
               (timestamps self ++ [row])
               (out_csv_dir self) (out_prefix self),
             lines ++ [ResultNumber (length (timestamps self))
                         (results_timestamp - timestamp)],
             Ok ())
          else
            (mk_reader (delays self) (delays_recv self) (delays_send self)
               (timestamps self ++ [row])
               (out_csv_dir self) (out_prefix self),
             lines, Ok ())
        end
      end
    end
  end.

(** [statistics.median] of a non-empty list. *)
Definition median (data : list Z) : Qc :=
  let data := merge_sort Z.le data in
  let n := length data in
  if Nat.odd n then Q2Qc (inject_Z (data !!! (n / 2)%nat))
  else
    let i := (n / 2)%nat in
    ((Q2Qc (inject_Z (data !!! (i - 1)%nat)) + Q2Qc (inject_Z (data !!! i)))
     / Q2Qc 2)%Qc.

(** [min] and [max] of a list, [0] standing in for the error on the
    empty list, which [stats] never asks for. *)
Definition minimum (data : list Z) : Z :=
  match data with
  | [] => 0
  | x :: rest => foldl Z.min x rest
  end.

Definition maximum (data : list Z) : Z :=
  match data with
  | [] => 0
  | x :: rest => foldl Z.max x rest
  end.

(** [f'{self.out_prefix}'] *)
Definition prefix_text (out_prefix : option string) : string :=
  default "None" out_prefix.

(** A file written by [csv.writer]: the directory and the file name given
    to [os.path.join], and the rows. *)
Record csv_file : Type := {
  csv_dir : string;
  csv_name : string;
  csv_rows : list (list value);
}.

Definition stats (self : ResultsReader) (send_frames_count : Z)
    : list log_line * option csv_file :=
  if bool_decide (length (delays self) < 1)%nat
     || bool_decide (length (delays_recv self) < 1)%nat
     || bool_decide (length (delays_send self) < 1)%nat
  then ([Separator; NoResultsData], None)
  else
    ([Separator;
      SendFrames send_frames_count (send_frames_count - Z.of_nat (length (delays self)));
      Delay (median (delays self))
            (mean ((λ d, Q2Qc (inject_Z d)) <$> delays self))
            (minimum (delays self)) (maximum (delays self))],
     match out_csv_dir self with
     | Some dir =>
         Some {| csv_dir := dir;
                 csv_name := prefix_text (out_prefix self) +:+ ".csv";
                 csv_rows := timestamps self |}
     | None => None
     end).

(** ** class CollisionWarningClient *)

Inductive StreamType : Type := JPEG | H264.

(** What the class takes from yaml, from the camera module and from
    NetAppClientBase. *)
Class Base `{Collaborators} : Type := {
  Path : Type;
  Callback : Type;
  load_config : Path → outcome (gmap string Options);
  load_camera_config : Path → outcome Options;
  rectified_size : Camera → Z * Z;
  rectify_image : Camera → Image → outcome Image;
}.

Section Client.
Context `{Base}.

(** Calls made on the NetAppClientBase object. *)
Inductive call : Type :=
| register (netapp_address : string) (args : arguments)
| disconnect
| send_image_ws (frame : Image) (timestamp : Z).

(** [results_viewer] is [None] when the attribute does not exist, a
    callback having been passed to the constructor. *)
Record CollisionWarningClient : Type := mk {
  config_dict : gmap string Options;
  camera_config_dict : Options;
  camera : Camera;
  fps : Qc;
  results_viewer : option ResultsReader;
  stream_type : option StreamType;
  frame_id : Z;
}.

(** The [args] of the registration, by stream type. *)
Definition register_args (self : CollisionWarningClient) (width height : Z)
    : outcome arguments :=
  match stream_type self with
  | Some H264 =>
      Ok {| arg_config := Some (config_dict self);
            arg_camera_config := Some (camera_config_dict self);
            arg_fps := Some (fps self);
            arg_viz := None;
            arg_viz_zmq_port := None;
            arg_h264 := Some true;
            arg_width := Some width;
            arg_height := Some height |}
  | Some JPEG =>
      Ok {| arg_config := Some (config_dict self);
            arg_camera_config := Some (camera_config_dict self);
            arg_fps := Some (fps self);
            arg_viz := None;
            arg_viz_zmq_port := None;
            arg_h264 := None;
            arg_width := None;
            arg_height := None |}
  | None => Raise (Exception "Exception" "Unknown stream type")
  end.

(** [__init__].  [registered] is what [client.register] does when it is
    called: return or raise.  The result lists the calls made on the
    NetAppClientBase object, oldest first. *)
Definition init (config camera_config : Path) (netapp_address : string) (fps : Qc)
    (results_callback : option Callback) (stream_type : option StreamType)
    (out_csv_dir out_prefix : option string) (registered : outcome unit)
    : list call * outcome CollisionWarningClient :=
  match load_config config with
  | Raise e => ([], Raise e)
  | Ok config_dict =>
    match load_camera_config camera_config with
    | Raise e => ([], Raise e)
    | Ok camera_config_dict =>
      match Camera_from_dict camera_config_dict with
      | Raise e => ([], Raise e)
      | Ok camera =>
        let '(width, height) := rectified_size camera in
        let fps := if bool_decide (Q2Qc 60 < fps)%Qc then Q2Qc 30 else fps in
        let results_viewer :=
          match results_callback with
          | None => Some (new_reader out_csv_dir out_prefix)
          | Some _ => None
          end in
        let self := mk config_dict camera_config_dict camera fps results_viewer
                      stream_type 0 in
        match register_args self width height with
        | Raise e => ([disconnect], Raise e)
        | Ok args =>
          match registered with
          | Raise e => ([register netapp_address args; disconnect], Raise e)
          | Ok _ => ([register netapp_address args], Ok self)
          end
        end
      end
    end
  end.

(** [send_image].  [now] is the clock reading used when no timestamp is
    given, [sent] what [client.send_image_ws] does when it is called. *)
Definition send_image (self : CollisionWarningClient) (frame : Image)
    (timestamp : option Z) (now : Z) (sent : outcome unit)
    : CollisionWarningClient * list call * outcome unit :=
  let self := mk (config_dict self) (camera_config_dict self) (camera self) (fps self)
                (results_viewer self) (stream_type self) (frame_id self + 1) in
  match rectify_image (camera self) frame with
  | Raise e => (self, [], Raise e)
  | Ok frame_undistorted =>
      let timestamp :=
        match timestamp with
        | Some t => if bool_decide (t = 0) then now else t
        | None => now
        end in
      (self, [send_image_ws frame_undistorted timestamp], sent)
  end.

(** [stop]: the statistics, if the client reads the results itself, and
    the disconnect. *)
Definition stop (self : CollisionWarningClient)
    : list log_line * option csv_file * list call :=
  match results_viewer self with
  | Some viewer =>
      let '(lines, file) := stats viewer (frame_id self) in
      (lines, file, [disconnect])
  | None => ([], None, [disconnect])
  end.

(** A result arriving at a client that reads the results itself. *)
Definition receive (self : CollisionWarningClient) (r : results) (results_timestamp : Z)
    : CollisionWarningClient :=
  match results_viewer self with
  | Some viewer =>
      mk (config_dict self) (camera_config_dict self) (camera self) (fps self)
        (Some (get_results viewer r results_timestamp).1.1)
        (stream_type self) (frame_id self)
  | None => self
  end.

End Client.
End Client.

(** * examples/fcw_client_python/client_python_middleware.py *)
Module Example.
Section Example.
Context `{Client.Base}.

(** The module globals. *)
Record globals : Type := {
  stopped : bool;
  collision_warning_client : option Client.CollisionWarningClient;
}.

(** What a signal leads to: the handler returns, or the process exits
    with the given status. *)
Inductive ending : Type :=
| Returns
| Exits (status : Z).

(** [signal_handler]; the second component is what [stop] of the client
    did, when it was called. *)
Definition signal_handler (g : globals)
    : globals * option (list Client.log_line * option Client.csv_file * list Client.call)
      * ending :=
  if stopped g then
    (g, Client.stop <$> collision_warning_client g, Exits 1)
  else
    ({| stopped := true; collision_warning_client := collision_warning_client g |},
     None, Returns).

End Example.
End Example.

(** * Properties of the pipeline worker *)
Section WorkerProperties.
Context `{Collaborators}.
Import CollisionWorker.

Implicit Types (w : CollisionWorker.t) (events : list input).

Lemma stop_event_stop w : stop_event (stop w) = true.
Proof. reflexivity. Qed.

Lemma stop_stop w : stop (stop w) = stop w.
Proof. reflexivity. Qed.

Lemma stop_when_set w : stop_event w = true → stop w = w.
Proof. destruct w as [? ? s ? ? ? ? ? ? ?]; simpl; intros ->; reflexivity. Qed.

Lemma iter_stop n w : Nat.iter (S n) stop w = stop w.
Proof.
  induction n as [|n IH]; [reflexivity|].
  change (Nat.iter (S (S n)) stop w) with (stop (Nat.iter (S n) stop w)).
  rewrite IH. apply stop_stop.
Qed.

Lemma run_when_set w events : stop_event w = true → run w events = (w, [], Stopped).
Proof. intros Hs. destruct events; simpl; rewrite Hs; reflexivity. Qed.

Lemma run_StopCalled w events : run w (StopCalled :: events) = (stop w, [], Stopped).
Proof.
  simpl. destruct (stop_event w) eqn:Hs.
  - by rewrite stop_when_set.
  - by apply run_when_set.
Qed.

(** Processing and publishing never touch the stop event. *)
Lemma stop_event_process_image w image :
  stop_event (process_image w image).1 = stop_event w.
Proof.
  unfold process_image.
  destruct (detect _ _); [|reflexivity].
  destruct (detections_to_numpy _); [|reflexivity].
  destruct (tracker_update _ _) as [s [[]|]]; simpl; [|reflexivity].
  destruct (get_reference_points _ _); [|reflexivity].
  destruct (guard_update _ _) as [g [[]|]]; reflexivity.
Qed.

Lemma stop_event_iteration w metadata image env :
  stop_event (iteration w metadata image env).1.1 = stop_event w.
Proof.
  unfold iteration.
  pose proof (stop_event_process_image (set_frame_id (frame_id w + 1) w) image) as Hp.
  destruct (process_image _ _) as [w1 [tracked|e]]; simpl in *.
  - destruct (publish_results _ _ _ _); simpl. exact Hp.
  - exact Hp.
Qed.

(** The exception caught by an iteration is the one raised in its [try]
    block, and an iteration that catches one emits nothing. *)
Lemma iteration_caught w metadata image env e :
  raises w metadata image env e ↔ (iteration w metadata image env).2 = Some e.
Proof.
  unfold raises, iteration.
  destruct (process_image _ _) as [w1 [tracked|e']]; simpl.
  - destruct (publish_results _ _ _ _) as [out [[]|e']]; simpl; naive_solver.
  - naive_solver.
Qed.

Lemma publish_results_raise w tracked metadata env e :
  (publish_results w tracked metadata env).2 = Raise e →
  (publish_results w tracked metadata env).1 = [].
Proof.
  unfold publish_results.
  destruct (dangerous_objects _); [|done].
  destruct tracked; [|done].
  match goal with |- context [match ?m with Ok _ => _ | Raise _ => _ end] =>
    destruct m; [|done] end.
  destruct (emit_raises env); done.
Qed.

Lemma iteration_abandoned w metadata image env e :
  (iteration w metadata image env).2 = Some e →
  (iteration w metadata image env).1.2 = [].
Proof.
  unfold iteration.
  destruct (process_image _ _) as [w1 [tracked|e']]; simpl; [|done].
  pose proof (publish_results_raise w1 (Some tracked)
    (<["timestamp_after_process" := VInt (t_after env)]>
       (<["timestamp_before_process" := VInt (t_before env)]> metadata)) env) as Hp.
  destruct (publish_results _ _ _ _) as [out [[]|e']]; simpl in *; [done|].
  intros _. by apply (Hp e').
Qed.

Lemma run_QueueItem w metadata image env rest :
  stop_event w = false →
  run w (QueueItem metadata image env :: rest) =
    let '(w1, out, _) := iteration w metadata image env in
    let '(w2, out', s) := run w1 rest in
    (w2, out ++ out', s).
Proof. intros Hs. simpl. by rewrite Hs. Qed.

(** The loop is left only once the stop event is set. *)
Lemma run_Stopped w events :
  (run w events).2 = Stopped → stop_event w = true ∨ StopCalled ∈ events.
Proof.
  revert w. induction events as [|ev rest IH]; intros w; simpl.
  - destruct (stop_event w); [by left|done].
  - destruct (stop_event w) eqn:Hs; [by left|].
    destruct ev as [|metadata image env|].
    + intros Hr. destruct (IH _ Hr) as [?|?]; [congruence|].
      right. apply elem_of_cons. by right.
    + pose proof (stop_event_iteration w metadata image env) as Hi.
      destruct (iteration w metadata image env) as [[w1 out] caught].
      specialize (IH w1).
      destruct (run w1 rest) as [[w2 out'] s]; simpl in *.
      intros Hr. destruct (IH Hr) as [?|?]; [congruence|].
      right. apply elem_of_cons. by right.
    + intros _. right. apply elem_of_cons. by left.
Qed.

(** C9: [stop] is idempotent.  Calling it any positive number of times
    leaves the worker in the state one call leaves it in; in that state
    the stop event is set, and the run loop, whatever the queue would
    deliver, leaves at its next check of the event without handling
    another frame.  The same holds when the call arrives while the loop
    is running. *)
Theorem stop_idempotent :
  ∀ w n events,
    Nat.iter (S n) stop w = stop w ∧
    stop_event (Nat.iter (S n) stop w) = true ∧
    run (Nat.iter (S n) stop w) events = (stop w, [], Stopped) ∧
    run w (StopCalled :: events) = (stop w, [], Stopped).
Proof.
  intros w n events. rewrite iter_stop.
  split_and!; [done|done| |apply run_StopCalled].
  by apply run_when_set.
Qed.

(** C8: when handling a dequeued frame raises an exception, in
    [process_image] or in [publish_results], the exception is caught in
    that iteration, nothing is emitted for the frame, the stop event
    stays clear and the loop goes on with whatever comes next; the loop
    is only ever left when the stop event has been set. *)
Theorem exception_abandons_iteration w metadata image env e rest :
  stop_event w = false →
  raises w metadata image env e →
  let '(w1, out, caught) := iteration w metadata image env in
  caught = Some e ∧ out = [] ∧ stop_event w1 = false ∧
  run w (QueueItem metadata image env :: rest) = run w1 rest ∧
  (∀ events, (run w events).2 = Stopped → StopCalled ∈ events).
Proof.
  intros Hs Hr. apply iteration_caught in Hr.
  pose proof (iteration_abandoned _ _ _ _ _ Hr) as Hout.
  pose proof (stop_event_iteration w metadata image env) as Hstop.
  rewrite run_QueueItem by done.
  destruct (iteration w metadata image env) as [[w1 out] caught]; simpl in *.
  subst. split_and!; [done|done|congruence| |].
  - by destruct (run w1 rest) as [[w2 out'] s].
  - intros events Hev. destruct (run_Stopped _ _ Hev); [congruence|done].
Qed.

End WorkerProperties.

(** * Which tracks a worker reports *)
Section Reporting.
Context `{Collaborators}.
Import CollisionWorker.

Implicit Types (l : list KalmanBoxTracker) (d : gmap Z KalmanBoxTracker).

Lemma comprehension_sound l d k t :
  foldl (λ d t, <[id t := t]> d) d l !! k = Some t →
  (t ∈ l ∧ id t = k) ∨ d !! k = Some t.
Proof.
  revert d. induction l as [|a l IH]; simpl; intros d Hk; [by right|].
  apply IH in Hk as [[Hin Hid]|Hk].
  - left. split; [|done]. apply elem_of_cons. by right.
  - destruct (decide (id a = k)) as [Heq|Hne].
    + rewrite Heq, lookup_insert_eq in Hk. injection Hk as ->.
      left. split; [|done]. apply elem_of_cons. by left.
    + rewrite lookup_insert_ne in Hk by done. by right.
Qed.

Lemma comprehension_keeps l d k :
  is_Some (d !! k) → is_Some (foldl (λ d t, <[id t := t]> d) d l !! k).
Proof.
  revert d. induction l as [|a l IH]; simpl; intros d Hk; [done|].
  apply IH. destruct (decide (id a = k)) as [<-|Hne].
  - rewrite lookup_insert_eq. by eexists.
  - by rewrite lookup_insert_ne.
Qed.

Lemma comprehension_complete l d t :
  t ∈ l → is_Some (foldl (λ d t, <[id t := t]> d) d l !! id t).
Proof.
  revert d. induction l as [|a l IH]; simpl; intros d Hin.
  - by apply elem_of_nil in Hin.
  - apply elem_of_cons in Hin as [->|Hin]; [|by apply IH].
    apply comprehension_keeps. rewrite lookup_insert_eq. by eexists.
Qed.

Lemma comprehension_fresh l d k :
  k ∉ id <$> l → foldl (λ d t, <[id t := t]> d) d l !! k = d !! k.
Proof.
  revert d. induction l as [|a l IH]; simpl; intros d Hk; [done|].
  rewrite not_elem_of_cons in Hk. destruct Hk as [Hne Hk].
  rewrite IH by done. by rewrite lookup_insert_ne.
Qed.

Lemma comprehension_unique l d t :
  NoDup (id <$> l) → t ∈ l →
  foldl (λ d t, <[id t := t]> d) d l !! id t = Some t.
Proof.
  revert d. induction l as [|a l IH]; simpl; intros d Hnd Hin.
  - by apply elem_of_nil in Hin.
  - apply NoDup_cons in Hnd as [Ha Hnd].
    apply elem_of_cons in Hin as [->|Hin]; [|by apply IH].
    rewrite comprehension_fresh by done. apply lookup_insert_eq.
Qed.

(** When nothing raises, [process_image] returns the comprehension over
    the updated tracker, after projecting exactly that dictionary and
    feeding the projection to the guard. *)
Lemma process_image_Ok w image w' tracked :
  process_image w image = (w', Ok tracked) →
  tracked = tracked_objects_of (tracker w') ∧
  ∃ ref_points,
    get_reference_points tracked (camera w') = Ok ref_points ∧
    guard_update (guard w) ref_points = (guard w', Ok ()).
Proof.
  unfold process_image.
  destruct (detect _ _); [|done].
  destruct (detections_to_numpy _); [|done].
  destruct (tracker_update _ _) as [s [[]|]]; simpl; [|done].
  destruct (get_reference_points _ _) as [ref_points|] eqn:Hrp; [|done].
  destruct (guard_update _ _) as [g [[]|]] eqn:Hg; simpl; [|done].
  intros [= <- <-]. simpl. split; [done|]. by exists ref_points.
Qed.

Lemma detection_of_key g dangerous item r :
  detection_of g dangerous item = Ok r → r.1 = item.1.
Proof.
  unfold detection_of, mbind, outcome_bind.
  destruct (get_state _); [|done].
  destruct (dangerous !! _); [|by intros [= <-]].
  destruct (distance g _); [by intros [= <-]|done].
Qed.

Lemma mapM_detection_of_keys g dangerous (l : list (Z * KalmanBoxTracker)) dets :
  mapM (detection_of g dangerous) l = Ok dets → dets.*1 = l.*1.
Proof.
  revert dets. induction l as [|item l IH]; intros dets.
  - by intros [= <-].
  - change (mapM (detection_of g dangerous) (item :: l))
      with (detection_of g dangerous item ≫= λ y,
              mapM (detection_of g dangerous) l ≫= λ k, mret (y :: k)).
    unfold mbind, outcome_bind, mret, outcome_ret.
    destruct (detection_of g dangerous item) as [r|] eqn:Hr; [|done].
    destruct (mapM _ l) as [k|]; [|done].
    intros [= <-]. rewrite !fmap_cons. f_equal.
    + by apply detection_of_key in Hr.
    + by apply IH.
Qed.

Lemma publish_results_keys w tracked metadata env m :
  publish_results w (Some tracked) metadata env = ([m], Ok ()) →
  dom (detections (data m)) = dom tracked.
Proof.
  unfold publish_results.
  destruct (dangerous_objects _) as [dangerous|]; [|done].
  destruct (mapM _ _) as [dets|] eqn:Hdets; simpl; [|done].
  unfold mbind, outcome_bind.
  do 5 (destruct (getitem metadata _); [|done]).
  destruct (emit_raises env); [done|].
  intros [= <-]. simpl.
  apply mapM_detection_of_keys in Hdets.
  apply set_eq. intros k.
  rewrite dom_list_to_map, Hdets, <- dom_alt. done.
Qed.

(** C7: in an iteration in which nothing raises, the dictionary of
    tracked objects is the comprehension over the trackers held after
    the update.  Every object in it is one of these trackers, filed
    under its own id, with [hit_streak > min_hits] and
    [time_since_update < 1]; every tracker meeting both conditions has
    its id in it, and is itself in it as the tracker's ids are distinct.
    This dictionary, and nothing else, is projected to reference points,
    which are fed to the guard, and the detections of the emitted result
    have exactly its ids. *)
Theorem reported_tracks w image w' tracked :
  process_image w image = (w', Ok tracked) →
  let s := tracker w' in
  (∀ tid t, tracked !! tid = Some t →
     t ∈ trackers s ∧ id t = tid ∧
     hit_streak t > min_hits s ∧ time_since_update t < 1) ∧
  (∀ t, t ∈ trackers s → hit_streak t > min_hits s → time_since_update t < 1 →
     is_Some (tracked !! id t) ∧
     (NoDup (id <$> trackers s) → tracked !! id t = Some t)) ∧
  (∃ ref_points,
     get_reference_points tracked (camera w') = Ok ref_points ∧
     guard_update (guard w) ref_points = (guard w', Ok ())) ∧
  (∀ metadata env m,
     publish_results w' (Some tracked) metadata env = ([m], Ok ()) →
     dom (detections (data m)) = dom tracked).
Proof.
  intros Hp s. apply process_image_Ok in Hp as [-> Hfed]. fold s.
  split_and!; [| |done|].
  - intros tid t Ht. unfold tracked_objects_of in Ht.
    apply comprehension_sound in Ht as [[Hin Hid]|Ht]; [|by rewrite lookup_empty in Ht].
    apply list_elem_of_filter in Hin as [[Hh Ht] Hin]. done.
  - intros t Hin Hh Ht.
    assert (t ∈ filter (λ t, hit_streak t > min_hits s ∧ time_since_update t < 1)
              (trackers s)) as Hf by (by apply list_elem_of_filter).
    split; [by apply comprehension_complete|].
    intros Hnd. apply comprehension_unique; [|done].
    eapply sublist_NoDup; [exact Hnd|].
    apply fmap_sublist, sublist_filter.
  - intros metadata env m. apply publish_results_keys.
Qed.

End Reporting.

(** * The startup window *)
Section Startup.

(** The startup loop gives up exactly when the worker is seen not alive
    at every poll up to one at which the clock has passed the window of
    five seconds. *)
Lemma await_alive_timeout t0 polls :
  await_alive t0 polls = Some false ↔
  ∃ early now rest,
    polls = (NotAlive <$> early) ++ NotAlive now :: rest ∧
    Forall (λ n, n ≤ t0 + 5000000000) early ∧
    now > t0 + 5000000000.
Proof.
  split.
  - induction polls as [|[|now] polls IH]; simpl; [done|done|].
    case_bool_decide as Hnow.
    + intros _. by exists [], now, polls.
    + intros Hr. destruct (IH Hr) as (early & now' & rest & -> & Hearly & Hnow').
      exists (now :: early), now', rest. split_and!; [done| |done].
      constructor; [lia|done].
  - intros (early & now & rest & -> & Hearly & Hnow).
    induction Hearly as [|n early Hn _ IH]; simpl.
    + by rewrite bool_decide_eq_true_2.
    + rewrite bool_decide_eq_false_2 by lia. exact IH.
Qed.

(** It succeeds exactly when the worker is seen alive at a poll before
    which the clock was never found past the window. *)
Lemma await_alive_alive t0 polls :
  await_alive t0 polls = Some true ↔
  ∃ early rest,
    polls = (NotAlive <$> early) ++ Alive :: rest ∧
    Forall (λ n, n ≤ t0 + 5000000000) early.
Proof.
  split.
  - induction polls as [|[|now] polls IH]; simpl; [done| |].
    + intros _. by exists [], polls.
    + case_bool_decide as Hnow; [done|].
      intros Hr. destruct (IH Hr) as (early & rest & -> & Hearly).
      exists (now :: early), rest. split; [done|].
      constructor; [lia|done].
  - intros (early & rest & -> & Hearly).
    induction Hearly as [|n early Hn _ IH]; simpl; [done|].
    rewrite bool_decide_eq_false_2 by lia. exact IH.
Qed.

End Startup.

(** * Properties of class Server *)
Section ServerProperties.
Context `{HB : Server.Base}.

Implicit Types (st : Server.state).

Lemma send_frame m st :
  Server.tasks (Server.send m st) = Server.tasks st ∧
  Server.queues (Server.send m st) = Server.queues st ∧
  Server.workers (Server.send m st) = Server.workers st ∧
  Server.outbox (Server.send m st) = Server.outbox st ++ [m].
Proof. done. Qed.


(** A registered session gets its frame handed to [store_data], whatever
    timestamp the frame carries. *)
Lemma image_callback_stores st sid timestamp frame now entry :
  Server.tasks st !! Server.eio_sid_from_sid sid Server.DATA_NAMESPACE = Some entry →
  Server.image_callback st sid
      {| Server.data_timestamp := Some timestamp; Server.data_frame := Some frame |} now =
    (Server.mk (Server.tasks st)
       (alter (λ qu, Server.store_data qu
                       (<["recv_timestamp" := VInt now]> {["timestamp" := VInt timestamp]},
                        frame))
          (Server.q (Server.task entry)) (Server.queues st))
       (Server.workers st) (Server.outbox st),
     Ok ()).
Proof. intros Hs. unfold Server.image_callback. by rewrite Hs. Qed.

Lemma command_callback_again st c sid t0 polls :
  cmd_type c = INIT →
  is_Some (Server.tasks st !! Server.get_eio_sid_of_control sid) →
  Server.command_callback st (Some c) sid t0 polls =
    Some (Server.send
            (Server.send_command_error "Initialization has already been called before" sid)
            st,
          (false, "Initialization has already been called before"%string)).
Proof.
  intros Hc Hs. unfold Server.command_callback.
  rewrite decide_True by done. by rewrite decide_True.
Qed.

Lemma command_callback_other st command sid t0 polls :
  (∀ c, command = Some c → cmd_type c ≠ INIT) →
  Server.command_callback st command sid t0 polls =
    Some (st, (true, Server.applied (Server.get_eio_sid_of_control sid) sid command)).
Proof.
  intros Hc. unfold Server.command_callback.
  destruct command as [c|]; [|done].
  rewrite decide_False; [done|]. by apply Hc.
Qed.

(** The timeout is reported after the session has been registered and
    its worker started, and nothing is taken back. *)
Lemma command_callback_timeout st c sid t0 polls w :
  cmd_type c = INIT →
  Server.tasks st !! Server.get_eio_sid_of_control sid = None →
  Server.new_worker (length (Server.queues st))
    (default ∅ (data c ≫= arg_config))
    (default no_options (data c ≫= arg_camera_config))
    (default (Q2Qc 30) (data c ≫= arg_fps))
    (default true (data c ≫= arg_viz))
    (default 5558 (data c ≫= arg_viz_zmq_port))
    ("Collision Worker " +:+ Server.get_eio_sid_of_control sid) = Ok w →
  await_alive t0 polls = Some false →
  ∃ st',
    Server.command_callback st (Some c) sid t0 polls =
      Some (st', (false, "Timed out to start worker"%string)) ∧
    Server.tasks st' !! Server.get_eio_sid_of_control sid =
      Some {| Server.task := {| Server.q := length (Server.queues st) |};
              Server.worker := length (Server.workers st) |} ∧
    Server.queues st' =
      Server.queues st ++ [{| maxsize := Server.NETAPP_INPUT_QUEUE; items := [] |}] ∧
    Server.workers st' = Server.workers st ++ [CollisionWorker.start w] ∧
    Server.outbox st' = Server.outbox st.
Proof.
  intros Hc Hn Hw Ha. unfold Server.command_callback.
  rewrite decide_True by done.
  rewrite decide_False by (rewrite Hn; by intros [? ?]).
  simpl. rewrite Hw, Ha.
  eexists. split; [done|]. simpl.
  split_and!; [apply lookup_insert_eq|done| |done].
  rewrite <- (Nat.add_0_r (length (Server.workers st))).
  by rewrite (alter_app_r CollisionWorker.start (Server.workers st) [w] 0).
Qed.

(** Conversely, the answer "Timed out to start worker" is only ever given
    with the session registered. *)
Lemma command_callback_timed_out st command sid t0 polls st' :
  Server.command_callback st command sid t0 polls =
    Some (st', (false, "Timed out to start worker"%string)) →
  Server.tasks st !! Server.get_eio_sid_of_control sid = None ∧
  await_alive t0 polls = Some false ∧
  is_Some (Server.tasks st' !! Server.get_eio_sid_of_control sid).
Proof.
  intros Hr. unfold Server.command_callback in Hr.
  destruct command as [c|]; [|done].
  destruct (decide (cmd_type c = INIT)); [|done].
  destruct (decide (is_Some (Server.tasks st !! _))) as [|Hn]; [done|].
  apply eq_None_not_Some in Hn.
  destruct (Server.new_worker _ _ _ _ _ _ _) as [w|ex]; [|done].
  destruct (await_alive t0 polls) as [[]|]; [done| |done].
  injection Hr as <-. simpl.
  split_and!; [done|done|]. rewrite lookup_insert_eq. by eexists.
Qed.

(** Only the disconnect handler takes a session out of the registry. *)
Lemma disconnect_callback_removes st sid :
  Server.tasks (Server.disconnect_callback st sid) !! Server.get_eio_sid_of_data sid = None.
Proof.
  unfold Server.disconnect_callback.
  destruct (Server.tasks st !! _) eqn:Hs; simpl; [apply lookup_delete_eq|done].
Qed.

Lemma heart_beat_count st :
  current_robot_count (Server.heart_beat st) = size (Server.tasks st).
Proof. done. Qed.

Lemma heart_beat_queue st :
  queue_size (Server.heart_beat st) = Server.NETAPP_INPUT_QUEUE ∧
  queue_occupancy (Server.heart_beat st) = 1.
Proof. done. Qed.

(** The report does not depend on the queues at all. *)
Lemma heart_beat_ignores_queues st queues :
  Server.heart_beat
    (Server.mk (Server.tasks st) queues (Server.workers st) (Server.outbox st)) =
  Server.heart_beat st.
Proof. done. Qed.

End ServerProperties.

(** * Properties of the socketio handlers *)
Section WebsocketProperties.
Context `{HW : Websocket.Base}.

Implicit Types (st : Websocket.state).

Lemma emit_frame m st :
  Websocket.tasks (Websocket.emit m st) = Websocket.tasks st ∧
  Websocket.last_timestamp (Websocket.emit m st) = Websocket.last_timestamp st ∧
  Websocket.queues (Websocket.emit m st) = Websocket.queues st ∧
  Websocket.workers (Websocket.emit m st) = Websocket.workers st ∧
  Websocket.outbox (Websocket.emit m st) = Websocket.outbox st ++ [m].
Proof. done. Qed.


Lemma command_callback_websocket_other st sid command t0 polls :
  (∀ c, command = Ok c → cmd_type c ≠ SET_STATE) →
  Websocket.command_callback_websocket st sid command t0 polls =
    Some (st, match command with Ok _ => Ok () | Raise e => Raise e end).
Proof.
  intros Hc. unfold Websocket.command_callback_websocket.
  destruct command as [c|e]; [|done].
  rewrite decide_False; [done|]. by apply Hc.
Qed.

(** The handler has no guard against a second initialization: it builds
    a new queue and a new worker and overwrites the registry entry; the
    worker of the old entry stays in the heap as it was, started and
    never told to stop. *)
Lemma command_callback_websocket_again st sid c t0 polls w :
  cmd_type c = SET_STATE →
  CollisionWorker.init (length (Websocket.queues st))
    (default ∅ (data c ≫= arg_config))
    (default no_options (data c ≫= arg_camera_config))
    (default (Q2Qc 30) (data c ≫= arg_fps))
    ("Detector " +:+ Websocket.eio_sid_from_sid sid "/control") = Ok w →
  await_alive t0 polls = Some true →
  ∃ st',
    Websocket.command_callback_websocket st sid (Ok c) t0 polls = Some (st', Ok ()) ∧
    (∃ task,
       Websocket.tasks st' !! Websocket.eio_sid_from_sid sid "/control" =
         Some {| Websocket.task := task; Websocket.worker := length (Websocket.workers st) |} ∧
       Websocket.q task = length (Websocket.queues st)) ∧
    Websocket.workers st' = Websocket.workers st ++ [CollisionWorker.start w] ∧
    Websocket.outbox st' = Websocket.outbox st.
Proof.
  intros Hc Hw Ha. unfold Websocket.command_callback_websocket.
  rewrite decide_True by done. simpl. rewrite Hw, Ha.
  eexists. split; [done|]. simpl. split_and!; [|  |done].
  - eexists. split; [apply lookup_insert_eq|done].
  - rewrite <- (Nat.add_0_r (length (Websocket.workers st))).
    by rewrite (alter_app_r CollisionWorker.start (Websocket.workers st) [w] 0).
Qed.

(** The timeout leaves the new entry in the registry here as well. *)
Lemma command_callback_websocket_timeout st sid c t0 polls w :
  cmd_type c = SET_STATE →
  CollisionWorker.init (length (Websocket.queues st))
    (default ∅ (data c ≫= arg_config))
    (default no_options (data c ≫= arg_camera_config))
    (default (Q2Qc 30) (data c ≫= arg_fps))
    ("Detector " +:+ Websocket.eio_sid_from_sid sid "/control") = Ok w →
  await_alive t0 polls = Some false →
  ∃ st',
    Websocket.command_callback_websocket st sid (Ok c) t0 polls =
      Some (st', Raise (ConnectionRefusedError "Timed out to start worker.")) ∧
    (∃ task,
       Websocket.tasks st' !! Websocket.eio_sid_from_sid sid "/control" =
         Some {| Websocket.task := task; Websocket.worker := length (Websocket.workers st) |} ∧
       Websocket.q task = length (Websocket.queues st)) ∧
    Websocket.queues st' =
      Websocket.queues st ++ [{| maxsize := Websocket.NETAPP_INPUT_QUEUE; items := [] |}] ∧
    Websocket.workers st' = Websocket.workers st ++ [CollisionWorker.start w] ∧
    Websocket.outbox st' = Websocket.outbox st.
Proof.
  intros Hc Hw Ha. unfold Websocket.command_callback_websocket.
  rewrite decide_True by done. simpl. rewrite Hw, Ha.
  eexists. split; [done|]. simpl. split_and!; [|done| |done].
  - eexists. split; [apply lookup_insert_eq|done].
  - rewrite <- (Nat.add_0_r (length (Websocket.workers st))).
    by rewrite (alter_app_r CollisionWorker.start (Websocket.workers st) [w] 0).
Qed.

(** ** The timestamp check *)





(** A frame older than the last accepted timestamp is never stored: the
    handler answers with an image_error and changes nothing else. *)
Lemma image_callback_websocket_stale st sid data now :
  default 0 (Websocket.data_timestamp data) < Websocket.last_timestamp st →
  ∃ error,
    Websocket.image_callback_websocket st sid data now =
      Websocket.emit
        (Websocket.image_error (default 0 (Websocket.data_timestamp data)) error sid) st ∧
    (is_Some (Websocket.tasks st !! Websocket.eio_sid_from_sid sid "/data") →
     is_Some (Websocket.data_frame data) →
     error = Websocket.older_timestamp (default 0 (Websocket.data_timestamp data))
               (Websocket.last_timestamp st)).
Proof.
  intros Hlt. unfold Websocket.image_callback_websocket.
  destruct (Websocket.tasks st !! _) as [entry|].
  - destruct (Websocket.data_frame data) as [frame|].
    + rewrite bool_decide_eq_true_2 by lia. by eexists.
    + eexists. split; [done|]. by intros _ [? ?].
  - eexists. split; [done|]. by intros [? ?].
Qed.

Lemma heart_beat_timer_count st :
  current_robot_count (Websocket.heart_beat_timer st) = size (Websocket.tasks st).
Proof. done. Qed.

Lemma heart_beat_timer_queue st :
  queue_size (Websocket.heart_beat_timer st) = 1 ∧
  queue_occupancy (Websocket.heart_beat_timer st) = 1.
Proof. done. Qed.

Lemma heart_beat_timer_ignores_queues st queues :
  Websocket.heart_beat_timer
    (Websocket.mk (Websocket.tasks st) (Websocket.last_timestamp st) queues
       (Websocket.workers st) (Websocket.outbox st)) =
  Websocket.heart_beat_timer st.
Proof. done. Qed.

End WebsocketProperties.

(** * The mean of the recorded latencies *)
Section Mean.



Lemma sum_permutation (l l' : list Qc) :
  l ≡ₚ l' → foldr Qcplus 0%Qc l = foldr Qcplus 0%Qc l'.
Proof.
  induction 1 as [|x l l' _ IH|x y l|l l' l'' _ IH1 _ IH2]; simpl.
  - done.
  - by rewrite IH.
  - ring.
  - congruence.
Qed.

(** The order in which the registry is walked does not matter. *)
Lemma mean_permutation (l l' : list Qc) : l ≡ₚ l' → mean l = mean l'.
Proof.
  intros Hp. unfold mean.
  by rewrite (sum_permutation _ _ Hp), (Permutation_length Hp).
Qed.

End Mean.

(** * Properties shared by the two interfaces *)
Section Interfaces.
Context `{HC : Collaborators} {HS : Server.Base} {HW : Websocket.Base}.


(** C5, amended: a command whose type is not the initialization type
    changes nothing and is not answered with an error.
    [Server.command_callback] returns [True] with the message "Control
    command applied, ..." and calls the transport not at all;
    [command_callback_websocket] returns normally, and when no
    ControlCommand can be built from the received dictionary the
    exception of the constructor leaves it with the state untouched. *)
Theorem other_command_is_applied :
  (∀ (st : Server.state) command sid t0 polls,
     (∀ c, command = Some c → cmd_type c ≠ INIT) →
     Server.command_callback st command sid t0 polls =
       Some (st, (true, Server.applied (Server.get_eio_sid_of_control sid) sid command))) ∧
  (∀ (st : Websocket.state) sid command t0 polls,
     (∀ c, command = Ok c → cmd_type c ≠ SET_STATE) →
     Websocket.command_callback_websocket st sid command t0 polls =
       Some (st, match command with Ok _ => Ok () | Raise e => Raise e end)).
Proof.
  split.
  - intros. by apply command_callback_other.
  - intros. by apply command_callback_websocket_other.
Qed.


(** C2, amended: when the new worker is not seen alive before the clock
    passes the startup window, initialization fails,
    [Server.command_callback] returning
    [(False, "Timed out to start worker")] and
    [command_callback_websocket] raising ConnectionRefusedError, but
    nothing is discarded: after the failed call the session id is in the
    registry, bound to the queue and to the started worker that the call
    created. *)
Theorem startup_timeout_keeps_session :
  (∀ (st : Server.state) c sid t0 polls w,
     cmd_type c = INIT →
     Server.tasks st !! Server.get_eio_sid_of_control sid = None →
     Server.new_worker (length (Server.queues st))
       (default ∅ (data c ≫= arg_config))
       (default no_options (data c ≫= arg_camera_config))
       (default (Q2Qc 30) (data c ≫= arg_fps))
       (default true (data c ≫= arg_viz))
       (default 5558 (data c ≫= arg_viz_zmq_port))
       ("Collision Worker " +:+ Server.get_eio_sid_of_control sid) = Ok w →
     await_alive t0 polls = Some false →
     ∃ st',
       Server.command_callback st (Some c) sid t0 polls =
         Some (st', (false, "Timed out to start worker"%string)) ∧
       Server.tasks st' !! Server.get_eio_sid_of_control sid =
         Some {| Server.task := {| Server.q := length (Server.queues st) |};
                 Server.worker := length (Server.workers st) |} ∧
       Server.queues st' =
         Server.queues st ++ [{| maxsize := Server.NETAPP_INPUT_QUEUE; items := [] |}] ∧
       Server.workers st' = Server.workers st ++ [CollisionWorker.start w] ∧
       Server.outbox st' = Server.outbox st) ∧
  (∀ (st : Websocket.state) sid c t0 polls w,
     cmd_type c = SET_STATE →
     CollisionWorker.init (length (Websocket.queues st))
       (default ∅ (data c ≫= arg_config))
       (default no_options (data c ≫= arg_camera_config))
       (default (Q2Qc 30) (data c ≫= arg_fps))
       ("Detector " +:+ Websocket.eio_sid_from_sid sid "/control") = Ok w →
     await_alive t0 polls = Some false →
     ∃ st',
       Websocket.command_callback_websocket st sid (Ok c) t0 polls =
         Some (st', Raise (ConnectionRefusedError "Timed out to start worker.")) ∧
       (∃ task,
          Websocket.tasks st' !! Websocket.eio_sid_from_sid sid "/control" =
            Some {| Websocket.task := task;
                    Websocket.worker := length (Websocket.workers st) |} ∧
          Websocket.q task = length (Websocket.queues st)) ∧
       Websocket.queues st' =
         Websocket.queues st ++ [{| maxsize := Websocket.NETAPP_INPUT_QUEUE; items := [] |}] ∧
       Websocket.workers st' = Websocket.workers st ++ [CollisionWorker.start w] ∧
       Websocket.outbox st' = Websocket.outbox st).
Proof.
  split.
  - intros. by apply command_callback_timeout.
  - intros. by apply command_callback_websocket_timeout.
Qed.

(** Neither report reflects what is queued.  In [Server.heart_beat] the
    queue size is the configured capacity NETAPP_INPUT_QUEUE and the
    occupancy is the constant 1; in [heart_beat_timer] both are the
    constant 1, whatever the configured capacity; and replacing the
    queues by any others leaves either report as it was. *)
Lemma heart_beat_queue_figures :
  (∀ st : Server.state,
     queue_size (Server.heart_beat st) = Server.NETAPP_INPUT_QUEUE ∧
     queue_occupancy (Server.heart_beat st) = 1 ∧
     ∀ queues,
       Server.heart_beat
         (Server.mk (Server.tasks st) queues (Server.workers st) (Server.outbox st)) =
       Server.heart_beat st) ∧
  (∀ st : Websocket.state,
     queue_size (Websocket.heart_beat_timer st) = 1 ∧
     queue_occupancy (Websocket.heart_beat_timer st) = 1 ∧
     ∀ queues,
       Websocket.heart_beat_timer
         (Websocket.mk (Websocket.tasks st) (Websocket.last_timestamp st) queues
            (Websocket.workers st) (Websocket.outbox st)) =
       Websocket.heart_beat_timer st).
Proof. done. Qed.

End Interfaces.

(** * The heartbeat *)
Section HeartBeat.




End HeartBeat.

(** * Scenarios on the concrete instantiation *)
Section Scenarios.

(** C1: the socketio handler on a second initialization of session A.
    The first SET_STATE registers queue 0 and worker 0.  The second one
    returns normally as well, emits no error, and leaves A bound to a
    new queue 1 and a new worker 1, while worker 0 is still there,
    started and with its stop event clear. *)
Theorem websocket_second_initialization :
  match @Websocket.command_callback_websocket _ (Demo.websocket 1)
          (Demo.websocket_start 1) "A" (Ok Demo.SET_STATE_command) 0 [Alive] with
  | Some (st1, Ok ()) =>
    match @Websocket.command_callback_websocket _ (Demo.websocket 1)
            st1 "A" (Ok Demo.SET_STATE_command) 10 [Alive] with
    | Some (st2, Ok ()) =>
        Websocket.tasks st1 !! "A" =
          Some {| Websocket.task :=
                    {| Websocket.sid := "A"; Websocket.q := 0%nat;
                       Websocket.decoder := None |};
                  Websocket.worker := 0%nat |} ∧
        Websocket.tasks st2 !! "A" =
          Some {| Websocket.task :=
                    {| Websocket.sid := "A"; Websocket.q := 1%nat;
                       Websocket.decoder := None |};
                  Websocket.worker := 1%nat |} ∧
        Websocket.outbox st2 = [] ∧
        length (Websocket.queues st2) = 2%nat ∧
        CollisionWorker.started <$> Websocket.workers st2 = [true; true] ∧
        CollisionWorker.stop_event <$> Websocket.workers st2 = [false; false]
    | _ => False
    end
  | _ => False
  end.
Proof. vm_compute. by split_and!. Qed.

(** The same two commands, of type INIT, on class Server: the second one
    is refused and changes nothing but the outbox. *)
Example server_second_initialization :
  match @Server.command_callback _ (Demo.server 1)
          Demo.server_start (Some Demo.INIT_command) "A" 0 [Alive] with
  | Some (st1, (true, _)) =>
    match @Server.command_callback _ (Demo.server 1)
            st1 (Some Demo.INIT_command) "A" 10 [Alive] with
    | Some (st2, answer) =>
        answer = (false, "Initialization has already been called before"%string) ∧
        Server.tasks st2 = Server.tasks st1 ∧
        Server.queues st2 = Server.queues st1 ∧
        Server.workers st2 = Server.workers st1 ∧
        Server.outbox st2 =
          [Server.send_command_error "Initialization has already been called before" "A"]
    | None => False
    end
  | _ => False
  end.
Proof. vm_compute. by split_and!. Qed.

(** C2 as stated fails on either interface.  The worker is not alive at
    either poll and the second poll is past the window: the call reports
    the timeout, and session A is in the registry afterwards, with its
    worker started. *)
Lemma startup_timeout_session_present :
  match @Server.command_callback _ (Demo.server 1) Demo.server_start
          (Some Demo.INIT_command) "A" 0 [NotAlive 1; NotAlive 6000000000] with
  | Some (st', answer) =>
      answer = (false, "Timed out to start worker"%string) ∧
      Server.tasks st' !! "A" =
        Some {| Server.task := {| Server.q := 0%nat |}; Server.worker := 0%nat |} ∧
      CollisionWorker.started <$> Server.workers st' = [true]
  | None => False
  end ∧
  match @Websocket.command_callback_websocket _ (Demo.websocket 1)
          (Demo.websocket_start 1) "A" (Ok Demo.SET_STATE_command) 0
          [NotAlive 1; NotAlive 6000000000] with
  | Some (st', answer) =>
      answer = Raise (ConnectionRefusedError "Timed out to start worker.") ∧
      Websocket.tasks st' !! "A" =
        Some {| Websocket.task :=
                  {| Websocket.sid := "A"; Websocket.q := 0%nat;
                     Websocket.decoder := None |};
                Websocket.worker := 0%nat |} ∧
      CollisionWorker.started <$> Websocket.workers st' = [true]
  | None => False
  end.
Proof. vm_compute. by split_and!. Qed.

Lemma startup_timeout_keeps_session_witness :
  let w := @CollisionWorker.mk Demo.collaborators "Collision Worker A" false false 0 0 []
             () (3, []) (Q2Qc (1 # 30)) () in
  cmd_type Demo.INIT_command = INIT ∧
  Server.tasks Demo.server_start !! "A" = None ∧
  @CollisionWorker.init Demo.collaborators 0 ∅ 3 (Q2Qc 30) "Collision Worker A" = Ok w ∧
  await_alive 0 [NotAlive 1; NotAlive 6000000000] = Some false ∧
  ∃ st',
    @Server.command_callback _ (Demo.server 1) Demo.server_start
        (Some Demo.INIT_command) "A" 0 [NotAlive 1; NotAlive 6000000000] =
      Some (st', (false, "Timed out to start worker"%string)) ∧
    Server.tasks st' !! "A" =
      Some {| Server.task := {| Server.q := 0%nat |}; Server.worker := 0%nat |} ∧
    Server.queues st' = [{| maxsize := 1; items := [] |}] ∧
    Server.workers st' = [CollisionWorker.start w] ∧
    Server.outbox st' = [].
Proof.
  intros w.
  assert (@CollisionWorker.init Demo.collaborators 0 ∅ 3 (Q2Qc 30) "Collision Worker A" = Ok w)
    as Hw by (by vm_compute).
  split_and!; [reflexivity|reflexivity|exact Hw|reflexivity|].
  exact (proj1 (@startup_timeout_keeps_session _ (Demo.server 1) (Demo.websocket 1))
           Demo.server_start Demo.INIT_command "A" 0 [NotAlive 1; NotAlive 6000000000] w
           eq_refl eq_refl Hw eq_refl).
Defined.


(** C5 as stated fails: a SET_STATE command sent to class Server is
    answered with success, and no error goes to the caller. *)
Lemma other_command_gets_no_error :
  @Server.command_callback _ (Demo.server 1) Demo.server_start
      (Some Demo.SET_STATE_command) "A" 0 [] =
    Some (Demo.server_start,
          (true,
           "Control command applied, eio_sid A, sid A, results sid A, command command"%string))
  ∧ Server.outbox Demo.server_start = [].
Proof. split; reflexivity. Qed.

Lemma other_command_is_applied_witness :
  cmd_type Demo.SET_STATE_command ≠ INIT ∧
  @Server.command_callback _ (Demo.server 1) Demo.server_start
      (Some Demo.SET_STATE_command) "A" 0 [] =
    Some (Demo.server_start,
          (true, @Server.applied _ (Demo.server 1) "A" "A" (Some Demo.SET_STATE_command))).
Proof.
  split; [discriminate|].
  apply (proj1 (@other_command_is_applied _ (Demo.server 1) (Demo.websocket 1))).
  intros c [= <-]. discriminate.
Defined.



(** C10: [heart_beat_timer] of the socketio interface with a configured
    capacity of 5, two sessions and nothing queued: the report carries
    queue size 1, not the configured capacity, and occupancy 1.
    [Server.heart_beat] in the same situation reports the capacity 5. *)
Theorem heart_beat_timer_queue_size_is_literal :
  let report := @Websocket.heart_beat_timer _ (Demo.websocket 5)
                  (Demo.websocket_two 5 [] []) in
  @Websocket.NETAPP_INPUT_QUEUE _ (Demo.websocket 5) = 5 ∧
  queue_size report = 1 ∧
  queue_occupancy report = 1 ∧
  queue_size (@Server.heart_beat _ (Demo.server 5) (Demo.server_two 5 [] [])) = 5.
Proof. by vm_compute. Qed.


(** A frame showing a confirmed track, a nascent one and a lost one:
    only the confirmed one is reported. *)
Lemma reported_tracks_witness :
  let w := Demo.worker 0 "Detector A" in
  let image := Demo.street in
  let w' := (@CollisionWorker.process_image Demo.collaborators w image).1 in
  let tracked : gmap Z Demo.track := {[7 := Demo.car]} in
  @CollisionWorker.process_image Demo.collaborators w image = (w', Ok tracked) ∧
  (∀ tid t, tracked !! tid = Some t →
     t ∈ image ∧ Demo.track_id t = tid ∧
     Demo.track_hit_streak t > 3 ∧ Demo.track_time_since_update t < 1) ∧
  tracked !! 8 = None ∧ tracked !! 9 = None.
Proof.
  intros w image w' tracked.
  assert (@CollisionWorker.process_image Demo.collaborators w image = (w', Ok tracked))
    as Hp by (by vm_compute).
  split; [exact Hp|].
  split; [|by vm_compute].
  exact (proj1 (@reported_tracks Demo.collaborators w image w' tracked Hp)).
Defined.

(** The detector refuses the empty frame: nothing is emitted for it and
    the loop goes on to the next frame. *)
Lemma exception_abandons_iteration_witness :
  let w := CollisionWorker.start (Demo.worker 0 "Detector A") in
  let metadata := Demo.metadata 100 101 "A" in
  let e := Exception "ValueError" "empty image" in
  let rest := [@CollisionWorker.QueueItem Demo.collaborators
                 (Demo.metadata 200 201 "A") Demo.road (Demo.env None)] in
  CollisionWorker.stop_event w = false ∧
  @CollisionWorker.raises Demo.collaborators w metadata Demo.blank (Demo.env None) e ∧
  let '(w1, out, caught) :=
    @CollisionWorker.iteration Demo.collaborators w metadata Demo.blank (Demo.env None) in
  caught = Some e ∧ out = [] ∧ CollisionWorker.stop_event w1 = false ∧
  CollisionWorker.run w
    (@CollisionWorker.QueueItem Demo.collaborators metadata Demo.blank (Demo.env None) :: rest) =
    CollisionWorker.run w1 rest ∧
  (∀ events, (CollisionWorker.run w events).2 = CollisionWorker.Stopped →
             CollisionWorker.StopCalled ∈ events).
Proof.
  intros w metadata e rest.
  split; [reflexivity|]. split; [reflexivity|].
  apply (@exception_abandons_iteration Demo.collaborators w metadata Demo.blank (Demo.env None) e rest);
    reflexivity.
Defined.

(** A bad frame, a good frame, a frame whose metadata lacks the
    addressee, a frame whose emission fails, then [stop]: exactly one
    result is emitted, for the good frame, and the loop ends on the stop
    event with all four frames counted. *)
Example run_through_failures :
  let w := CollisionWorker.start (Demo.worker 0 "Detector A") in
  let '(w', out, s) :=
    @CollisionWorker.run Demo.collaborators w
      [CollisionWorker.QueueItem (Demo.metadata 100 101 "A") Demo.blank (Demo.env None);
       CollisionWorker.QueueEmpty;
       CollisionWorker.QueueItem (Demo.metadata 200 201 "A")
         Demo.street (Demo.env None);
       CollisionWorker.QueueItem (delete "websocket_id" (Demo.metadata 300 301 "A"))
         Demo.road (Demo.env None);
       CollisionWorker.QueueItem (Demo.metadata 400 401 "A") Demo.road
         (Demo.env (Some (Exception "OSError" "connection lost")));
       CollisionWorker.StopCalled;
       CollisionWorker.QueueItem (Demo.metadata 500 501 "A") Demo.road (Demo.env None)] in
  s = CollisionWorker.Stopped ∧
  CollisionWorker.frame_id w' = 4 ∧
  (λ m, (CollisionWorker.timestamp (CollisionWorker.data m),
         CollisionWorker.to m,
         (map_to_list (CollisionWorker.detections (CollisionWorker.data m))).*1))
    <$> out = [(VInt 200, VStr "A", [7])].
Proof. vm_compute. by split_and!. Qed.

End Scenarios.

(** * More on the pipeline worker *)
Section WorkerRuns.
Context `{Collaborators}.
Import CollisionWorker.

Implicit Types (w : CollisionWorker.t) (events : list input).

(** ** Construction *)

Lemma init_Ok image_queue config camera_config fps name w :
  init image_queue config camera_config fps name = Ok w →
  fps ≠ 0%Qc ∧
  CollisionWorker.name w = name ∧
  started w = false ∧
  stop_event w = false ∧
  CollisionWorker.image_queue w = image_queue ∧
  frame_id w = 0 ∧
  latency_measurements w = [].
Proof.
  unfold init, mbind, outcome_bind.
  destruct (Detector_from_dict _); [|done].
  destruct (Sort_from_dict _); [|done].
  destruct (Guard_from_dict _); [|done].
  destruct (decide (fps = 0%Qc)); [done|].
  destruct (Camera_from_dict _); [|done].
  by intros [= <-].
Qed.

(** X1: a worker cannot be constructed for a frame rate of zero: [init]
    raises whatever the configuration is, and the exception is
    ZeroDivisionError, raised before the camera configuration is looked
    at, as soon as detector, tracker and guard accept theirs. *)
Theorem init_zero_fps image_queue config camera_config name :
  (∃ e, init image_queue config camera_config 0%Qc name = Raise e) ∧
  (∀ d s g,
     Detector_from_dict (config_get config "detector") = Ok d →
     Sort_from_dict (config_get config "tracker") = Ok s →
     Guard_from_dict (config_get config "fcw") = Ok g →
     init image_queue config camera_config 0%Qc name = Raise ZeroDivisionError).
Proof.
  unfold init, mbind, outcome_bind. split.
  - destruct (Detector_from_dict _); [|by eexists].
    destruct (Sort_from_dict _); [|by eexists].
    destruct (Guard_from_dict _); [|by eexists].
    rewrite decide_True by done. by eexists.
  - intros d s g -> -> ->. by rewrite decide_True.
Qed.

(** ** The frame counter *)

Lemma frame_id_process_image w image :
  frame_id (process_image w image).1 = frame_id w.
Proof.
  unfold process_image.
  destruct (detect _ _); [|reflexivity].
  destruct (detections_to_numpy _); [|reflexivity].
  destruct (tracker_update _ _) as [s [[]|]]; simpl; [|reflexivity].
  destruct (get_reference_points _ _); [|reflexivity].
  destruct (guard_update _ _) as [g [[]|]]; reflexivity.
Qed.

Lemma frame_id_iteration w metadata image env :
  frame_id (iteration w metadata image env).1.1 = frame_id w + 1.
Proof.
  unfold iteration.
  pose proof (frame_id_process_image (set_frame_id (frame_id w + 1) w) image) as Hp.
  destruct (process_image _ _) as [w1 [tracked|e]]; simpl in *.
  - destruct (publish_results _ _ _ _); simpl. exact Hp.
  - exact Hp.
Qed.

(** ** What an iteration emits *)

Lemma publish_results_emits w tracked metadata env :
  (∃ e, publish_results w (Some tracked) metadata env = ([], Raise e)) ∨
  ∃ m, publish_results w (Some tracked) metadata env = ([m], Ok ()) ∧
       event m = "message" ∧ namespace m = "/results" ∧
       metadata !! "timestamp" = Some (timestamp (data m)) ∧
       metadata !! "recv_timestamp" = Some (recv_timestamp (data m)) ∧
       metadata !! "timestamp_before_process" = Some (timestamp_before_process (data m)) ∧
       metadata !! "timestamp_after_process" = Some (timestamp_after_process (data m)) ∧
       send_timestamp (data m) = t_send env ∧
       metadata !! "websocket_id" = Some (to m).
Proof.
  unfold publish_results.
  destruct (dangerous_objects _) as [dangerous|]; [|left; by eexists].
  destruct (mapM _ _) as [dets|]; simpl; [|left; by eexists].
  unfold mbind, outcome_bind, getitem.
  destruct (metadata !! "timestamp") as [ts|]; [|left; by eexists].
  destruct (metadata !! "recv_timestamp") as [rts|]; [|left; by eexists].
  destruct (metadata !! "timestamp_before_process") as [tb|]; [|left; by eexists].
  destruct (metadata !! "timestamp_after_process") as [ta|]; [|left; by eexists].
  destruct (metadata !! "websocket_id") as [dest|]; [|left; by eexists].
  destruct (emit_raises env); [left; by eexists|].
  right. eexists. split; [done|]. by split_and!.
Qed.

(** An iteration emits nothing and catches an exception, or it emits
    one message built from the metadata of its frame. *)
Lemma iteration_emits w metadata image env :
  (∃ e, (iteration w metadata image env).1.2 = [] ∧
        (iteration w metadata image env).2 = Some e) ∨
  ∃ m, (iteration w metadata image env).1.2 = [m] ∧
       (iteration w metadata image env).2 = None ∧
       event m = "message" ∧ namespace m = "/results" ∧
       metadata !! "timestamp" = Some (timestamp (data m)) ∧
       metadata !! "recv_timestamp" = Some (recv_timestamp (data m)) ∧
       timestamp_before_process (data m) = VInt (t_before env) ∧
       timestamp_after_process (data m) = VInt (t_after env) ∧
       send_timestamp (data m) = t_send env ∧
       metadata !! "websocket_id" = Some (to m).
Proof.
  unfold iteration.
  destruct (process_image _ _) as [w1 [tracked|e]]; simpl; [|left; by eexists].
  destruct (publish_results_emits w1 tracked
    (<["timestamp_after_process" := VInt (t_after env)]>
       (<["timestamp_before_process" := VInt (t_before env)]> metadata)) env)
    as [[e ->]|(m & -> & He & Hn & Hts & Hrts & Htb & Hta & Hsend & Hto)]; simpl.
  - left. by eexists.
  - right. exists m.
    rewrite !lookup_insert_ne in Hts, Hrts, Hto by done.
    rewrite lookup_insert_ne, lookup_insert_eq in Htb by done.
    rewrite lookup_insert_eq in Hta.
    split_and!; try done; congruence.
Qed.

(** X2: the result of a frame is tied to that frame.  Whenever an
    iteration emits, it emits exactly one message, with event "message"
    on namespace "/results", addressed to the "websocket_id" of the
    metadata that came with the frame, carrying the "timestamp" and
    "recv_timestamp" of that metadata, the two clock readings taken
    around the processing of this frame (whatever the metadata held
    under these keys before) and the clock reading taken when sending;
    no exception was caught in that iteration. *)
Theorem result_belongs_to_frame w metadata image env w1 out caught :
  iteration w metadata image env = (w1, out, caught) →
  out ≠ [] →
  ∃ m, out = [m] ∧ caught = None ∧
       event m = "message" ∧ namespace m = "/results" ∧
       metadata !! "websocket_id" = Some (to m) ∧
       metadata !! "timestamp" = Some (timestamp (data m)) ∧
       metadata !! "recv_timestamp" = Some (recv_timestamp (data m)) ∧
       timestamp_before_process (data m) = VInt (t_before env) ∧
       timestamp_after_process (data m) = VInt (t_after env) ∧
       send_timestamp (data m) = t_send env.
Proof.
  intros Hi Hout.
  destruct (iteration_emits w metadata image env)
    as [(e & He & _)|(m & Hm & Hc & ? & ? & ? & ? & ? & ? & ? & ?)];
    rewrite Hi in *; simpl in *; [done|].
  exists m. by split_and!.
Qed.

(** X3: a frame whose metadata lacks "timestamp", "recv_timestamp" or
    "websocket_id" gets no result: the iteration emits nothing and ends
    in a caught exception, and the worker is left with its stop event as
    it was. *)
Theorem incomplete_metadata_no_result w metadata image env :
  metadata !! "timestamp" = None ∨
  metadata !! "recv_timestamp" = None ∨
  metadata !! "websocket_id" = None →
  let '(w1, out, caught) := iteration w metadata image env in
  out = [] ∧ (∃ e, caught = Some e) ∧ stop_event w1 = stop_event w.
Proof.
  intros Hmissing.
  pose proof (stop_event_iteration w metadata image env) as Hstop.
  destruct (iteration_emits w metadata image env)
    as [(e & He & Hc)|(m & _ & _ & _ & _ & Hts & Hrts & _ & _ & _ & Hto)].
  - destruct (iteration w metadata image env) as [[w1 out] caught]; simpl in *.
    split_and!; [done|by eexists|done].
  - destruct Hmissing as [Hm|[Hm|Hm]]; congruence.
Qed.

(** ** Runs *)

Lemma run_Polling w events :
  (run w events).2 = Polling → stop_event (run w events).1.1 = false.
Proof.
  revert w. induction events as [|ev rest IH]; intros w; simpl.
  - by destruct (stop_event w) eqn:Hs.
  - destruct (stop_event w) eqn:Hs; [done|].
    destruct ev as [|metadata image env|]; [apply IH| |apply IH].
    destruct (iteration w metadata image env) as [[w1 out] caught].
    specialize (IH w1). by destruct (run w1 rest) as [[w2 out'] s].
Qed.

(** X4: runs compose.  Running the loop over two stretches of events in
    one go is running it over the first stretch and, when the loop is
    still polling at its end, over the second one from the state
    reached, the results of the first stretch coming first; a loop that
    stopped during the first stretch handles nothing of the second. *)
Theorem run_app w events1 events2 :
  run w (events1 ++ events2) =
    let '(w1, out1, s1) := run w events1 in
    match s1 with
    | Stopped => (w1, out1, Stopped)
    | Polling =>
        let '(w2, out2, s2) := run w1 events2 in
        (w2, out1 ++ out2, s2)
    end.
Proof.
  revert w. induction events1 as [|ev rest IH]; intros w.
  - simpl. destruct (stop_event w) eqn:Hs.
    + by rewrite run_when_set.
    + by destruct (run w events2) as [[w2 out2] s2].
  - simpl. destruct (stop_event w) eqn:Hs; [done|].
    destruct ev as [|metadata image env|]; [apply IH| |apply IH].
    destruct (iteration w metadata image env) as [[w1 out] caught].
    rewrite IH.
    destruct (run w1 rest) as [[w2 out1] [|]]; [done|].
    destruct (run w2 events2) as [[w3 out2] s2].
    by rewrite app_assoc.
Qed.

(** The metadata of the frames among the events, oldest first. *)
Lemma run_counts w events :
  let frames := omap (λ ev, match ev with
                            | QueueItem metadata _ _ => Some metadata
                            | _ => None
                            end) events in
  let '(w', out, s) := run w events in
  frame_id w ≤ frame_id w' ≤ frame_id w + Z.of_nat (length frames) ∧
  (length out ≤ Z.to_nat (frame_id w' - frame_id w))%nat ∧
  (s = Polling → frame_id w' = frame_id w + Z.of_nat (length frames)).
Proof.
  revert w. induction events as [|ev rest IH]; intros w; simpl.
  - destruct (stop_event w); simpl; split_and!; try done; lia.
  - destruct (stop_event w) eqn:Hs.
    { simpl. split_and!; try done; lia. }
    destruct ev as [|metadata image env|].
    + apply IH.
    + pose proof (frame_id_iteration w metadata image env) as Hid.
      assert (length (iteration w metadata image env).1.2 ≤ 1)%nat as Hout.
      { destruct (iteration_emits w metadata image env)
          as [(e & -> & _)|(m & -> & _)]; simpl; lia. }
      destruct (iteration w metadata image env) as [[w1 out] caught].
      specialize (IH w1). simpl in *.
      destruct (run w1 rest) as [[w2 out'] s].
      destruct IH as ([Hle1 Hle2] & Hlen & Hpoll).
      rewrite length_app.
      change (list_omap input (gmap string value)) with (@omap list _ input (gmap string value)).
      set (n := length (omap _ rest)) in *.
      split_and!; [lia|lia|lia|intros Hp; specialize (Hpoll Hp); lia].
    + specialize (IH (stop w)).
      change (frame_id (stop w)) with (frame_id w) in IH. apply IH.
Qed.

(** X5: the frame counter counts every frame taken from the queue, the
    ones whose handling failed included: over a run it grows by at most
    the number of frames among the events, by exactly that number when
    the loop is still polling at the end, and the run emits at most one
    result per frame counted. *)
Theorem frames_are_counted w events w' out s :
  run w events = (w', out, s) →
  let frames := omap (λ ev, match ev with
                            | QueueItem metadata _ _ => Some metadata
                            | _ => None
                            end) events in
  frame_id w ≤ frame_id w' ≤ frame_id w + Z.of_nat (length frames) ∧
  (length out ≤ Z.to_nat (frame_id w' - frame_id w))%nat ∧
  (s = Polling → frame_id w' = frame_id w + Z.of_nat (length frames)).
Proof.
  intros Hr. pose proof (run_counts w events) as Hc.
  simpl in Hc. by rewrite Hr in Hc.
Qed.

(** X6: results leave in the order in which the frames were taken from
    the queue: the timestamps of the results emitted by a run form a
    subsequence of the timestamps of the frames among its events. *)
Theorem results_in_frame_order w events :
  (λ m, timestamp (data m)) <$> (run w events).1.2
  `sublist_of`
  omap (λ ev, match ev with
              | QueueItem metadata _ _ => metadata !! "timestamp"
              | _ => None
              end) events.
Proof.
  revert w. induction events as [|ev rest IH]; intros w; simpl.
  - destruct (stop_event w); simpl; constructor.
  - destruct (stop_event w) eqn:Hs; [apply sublist_nil_l|].
    destruct ev as [|metadata image env|]; [apply IH| |apply IH].
    pose proof (iteration_emits w metadata image env) as He.
    destruct (iteration w metadata image env) as [[w1 out] caught].
    specialize (IH w1).
    destruct (run w1 rest) as [[w2 out'] s]. simpl in *.
    destruct He as [(e & -> & _)|(m & -> & _ & _ & _ & Hts & _)]; simpl.
    + destruct (metadata !! "timestamp"); [by apply sublist_cons|done].
    + rewrite Hts. by apply sublist_skip.
Qed.

(** ** The detections of a result *)

Lemma mapM_detection_of_Forall2 g dangerous (l : list (Z * KalmanBoxTracker)) dets :
  mapM (detection_of g dangerous) l = Ok dets →
  Forall2 (λ item r, detection_of g dangerous item = Ok r) l dets.
Proof.
  revert dets. induction l as [|item l IH]; intros dets.
  - intros [= <-]. constructor.
  - change (mapM (detection_of g dangerous) (item :: l))
      with (detection_of g dangerous item ≫= λ y,
              mapM (detection_of g dangerous) l ≫= λ k, mret (y :: k)).
    unfold mbind, outcome_bind, mret, outcome_ret.
    destruct (detection_of g dangerous item) as [r|] eqn:Hr; [|done].
    destruct (mapM _ l) as [k|]; [|done].
    intros [= <-]. constructor; [done|by apply IH].
Qed.

Lemma detection_of_Ok g dangerous tid t r :
  detection_of g dangerous (tid, t) = Ok r →
  ∃ d, r = (tid, d) ∧ get_state t = Ok (bbox d) ∧
       match dangerous !! tid with
       | None => dangerous_distance d = 0%Qc
       | Some o => distance g o = Ok (dangerous_distance d)
       end.
Proof.
  unfold detection_of, mbind, outcome_bind. simpl.
  destruct (get_state t) as [b|]; [|done].
  destruct (dangerous !! tid) as [o|].
  - destruct (distance g o) as [dist|] eqn:Hd; [|done].
    intros [= <-]. by eexists.
  - intros [= <-]. by eexists.
Qed.

(** X7: the detections of an emitted result are the tracked objects of
    the frame, one entry per id and no other entry.  The entry of an
    object holds the bounding box its tracker reports, and as danger
    distance 0 when the guard does not list the object as dangerous, the
    distance computed for it otherwise. *)
Theorem detections_of_result w tracked metadata env m :
  publish_results w (Some tracked) metadata env = ([m], Ok ()) →
  ∃ dangerous,
    dangerous_objects (guard w) = Ok dangerous ∧
    ∀ tid,
      match tracked !! tid with
      | None => detections (data m) !! tid = None
      | Some t =>
          ∃ d, detections (data m) !! tid = Some d ∧
               get_state t = Ok (bbox d) ∧
               match dangerous !! tid with
               | None => dangerous_distance d = 0%Qc
               | Some o => distance (guard w) o = Ok (dangerous_distance d)
               end
      end.
Proof.
  unfold publish_results.
  destruct (dangerous_objects _) as [dangerous|]; [|done].
  destruct (mapM _ _) as [dets|] eqn:Hdets; simpl; [|done].
  unfold mbind, outcome_bind.
  do 5 (destruct (getitem metadata _); [|done]).
  destruct (emit_raises env); [done|].
  intros [= <-]. simpl. exists dangerous. split; [done|].
  pose proof (mapM_detection_of_keys _ _ _ _ Hdets) as Hkeys.
  apply mapM_detection_of_Forall2 in Hdets.
  assert (NoDup dets.*1) as Hnd by (rewrite Hkeys; apply NoDup_fst_map_to_list).
  intros tid. destruct (tracked !! tid) as [t|] eqn:Ht.
  - apply elem_of_map_to_list, list_elem_of_lookup in Ht as [i Hi].
    destruct (Forall2_lookup_l _ _ _ _ _ Hdets Hi) as (r & Hr & Hof).
    apply detection_of_Ok in Hof as (d & -> & Hbox & Hdist).
    exists d. split_and!; [|done|done].
    apply elem_of_list_to_map; [done|]. apply list_elem_of_lookup. by exists i.
  - apply not_elem_of_list_to_map. rewrite Hkeys.
    intros Hin. apply list_elem_of_fmap in Hin as ([tid' t] & -> & Hin).
    apply elem_of_map_to_list in Hin. simpl in Ht. congruence.
Qed.

End WorkerRuns.

(** * The registry of class Server over time *)
Section ServerSessions.
Context `{HB : Server.Base}.
Import Sessions.

Implicit Types (st : Server.state).

Lemma server_sound_start : server_sound server_start.
Proof. split; intros *; simpl; by rewrite lookup_empty. Qed.

Lemma server_sound_outbox st outbox :
  server_sound st →
  server_sound (Server.mk (Server.tasks st) (Server.queues st) (Server.workers st) outbox).
Proof. done. Qed.

Lemma server_sound_queues st queues :
  (length (Server.queues st) ≤ length queues)%nat →
  server_sound st →
  server_sound (Server.mk (Server.tasks st) queues (Server.workers st) (Server.outbox st)).
Proof.
  intros Hlen [Hrefs Hinj]. split; [|done].
  intros sid e He. destruct (Hrefs sid e He) as [Hq Hw]. simpl. split; [lia|done].
Qed.

Lemma server_sound_register st eio_sid qu w outbox :
  server_sound st →
  server_sound
    (Server.mk
       (<[eio_sid := {| Server.task := {| Server.q := length (Server.queues st) |};
                        Server.worker := length (Server.workers st) |}]> (Server.tasks st))
       (Server.queues st ++ [qu])
       (Server.workers st ++ [CollisionWorker.start w]) outbox).
Proof.
  intros [Hrefs Hinj]. split; simpl.
  - intros sid e. destruct (decide (eio_sid = sid)) as [->|Hne].
    + rewrite lookup_insert_eq. intros [= <-]. simpl.
      rewrite length_app. simpl. split; [lia|].
      exists (CollisionWorker.start w). split; [|done].
      by rewrite lookup_app_r, Nat.sub_diag.
    + rewrite lookup_insert_ne by done. intros He.
      destruct (Hrefs sid e He) as [Hq (w' & Hw' & Hs)].
      rewrite length_app. split; [lia|].
      exists w'. split; [|done].
      rewrite lookup_app_l; [done|]. by eapply lookup_lt_Some.
  - intros sid1 sid2 e1 e2.
    destruct (decide (eio_sid = sid1)) as [<-|Hne1];
      destruct (decide (eio_sid = sid2)) as [<-|Hne2].
    + done.
    + rewrite lookup_insert_eq, lookup_insert_ne by done.
      intros [= <-] He2 _. simpl.
      destruct (Hrefs sid2 e2 He2) as [Hq (w' & Hw' & _)].
      apply lookup_lt_Some in Hw'. lia.
    + rewrite lookup_insert_ne, lookup_insert_eq by done.
      intros He1 [= <-] _. simpl.
      destruct (Hrefs sid1 e1 He1) as [Hq (w' & Hw' & _)].
      apply lookup_lt_Some in Hw'. lia.
    + rewrite !lookup_insert_ne by done. apply Hinj.
Qed.

Lemma image_callback_sound st sid data now :
  server_sound st → server_sound (Server.image_callback st sid data now).1.
Proof.
  intros Hs. unfold Server.image_callback.
  destruct (Server.tasks st !! _) as [e|]; [|done].
  destruct (Server.data_timestamp data); [|done].
  destruct (Server.data_frame data); [|done]. simpl.
  apply (server_sound_queues st); [|done]. by rewrite length_alter.
Qed.

Lemma command_callback_sound st command sid t0 polls st' answer :
  server_sound st →
  Server.command_callback st command sid t0 polls = Some (st', answer) →
  server_sound st'.
Proof.
  intros Hs. unfold Server.command_callback.
  destruct command as [c|]; [|by intros [= <- _]].
  destruct (decide (cmd_type c = INIT)); [|by intros [= <- _]].
  destruct (decide (is_Some _)); [by intros [= <- _]|].
  destruct (Server.new_worker _ _ _ _ _ _ _) as [w|ex]; simpl.
  - rewrite <- (Nat.add_0_r (length (Server.workers st))).
    rewrite (alter_app_r CollisionWorker.start (Server.workers st) [w] 0).
    rewrite Nat.add_0_r. simpl.
    destruct (await_alive t0 polls) as [[]|]; [| |done];
      intros [= <- _]; by apply server_sound_register.
  - intros [= <- _].
    apply (server_sound_queues st); [|done]. rewrite length_app. lia.
Qed.

Lemma disconnect_callback_sound st sid :
  server_sound st → server_sound (Server.disconnect_callback st sid).
Proof.
  intros [Hrefs Hinj]. unfold Server.disconnect_callback.
  destruct (Server.tasks st !! _) as [e|] eqn:He; [|done].
  split; simpl.
  - intros sid' e' He'.
    apply lookup_delete_Some in He' as [Hne He'].
    destruct (Hrefs sid' e' He') as [Hq (w' & Hw' & Hstarted)].
    split; [done|]. exists w'. split; [|done].
    rewrite list_lookup_alter_ne; [done|].
    by destruct (Hinj _ _ _ _ He He' Hne).
  - intros sid1 sid2 e1 e2 He1 He2.
    apply lookup_delete_Some in He1 as [_ He1].
    apply lookup_delete_Some in He2 as [_ He2].
    by apply Hinj.
Qed.

Lemma server_handle_sound st c st' :
  server_sound st → server_handle st c = Some st' → server_sound st'.
Proof.
  intros Hs. destruct c as [sid data now|command sid t0 polls|sid|i]; simpl.
  - intros [= <-]. by apply image_callback_sound.
  - destruct (Server.command_callback _ _ _ _ _) as [[st1 answer]|] eqn:Hc; [|done].
    intros [= <-]. by eapply command_callback_sound.
  - intros [= <-]. by apply disconnect_callback_sound.
  - intros [= <-]. apply (server_sound_queues st); [|done].
    by rewrite length_alter.
Qed.

Lemma server_reachable_sound st :
  rtc server_step server_start st → server_sound st.
Proof.
  revert st. apply (rtc_ind_r server_sound server_start).
  - apply server_sound_start.
  - intros st1 st2 _ [c Hc] IH. by eapply server_handle_sound.
Qed.

(** X8: whatever callbacks and worker reads have happened since the
    server was created, every session of the registry has a queue and a
    started worker of its own: its references point at objects that
    exist, and no two sessions share a queue or a worker. *)
Theorem server_sessions_are_separate st :
  rtc server_step server_start st →
  (∀ sid e, Server.tasks st !! sid = Some e →
     (Server.q (Server.task e) < length (Server.queues st))%nat ∧
     ∃ w, Server.workers st !! Server.worker e = Some w ∧
          CollisionWorker.started w = true) ∧
  (∀ sid1 sid2 e1 e2,
     Server.tasks st !! sid1 = Some e1 → Server.tasks st !! sid2 = Some e2 →
     sid1 ≠ sid2 →
     Server.q (Server.task e1) ≠ Server.q (Server.task e2) ∧
     Server.worker e1 ≠ Server.worker e2).
Proof. apply server_reachable_sound. Qed.

End ServerSessions.

(** * Callbacks of class Server, one at a time *)
Section ServerCallbacks.
Context `{HB : Server.Base}.
Import Sessions.

Implicit Types (st : Server.state).

(** X9: a frame only ever reaches the queue of the session that sent
    it.  [Server.image_callback] leaves registry and workers alone and
    keeps the number of queues, and, the registry being sound, the queue
    of every other session is after the call what it was before. *)
Theorem frame_reaches_own_queue_only st sid data now :
  server_sound st →
  let st' := (Server.image_callback st sid data now).1 in
  Server.tasks st' = Server.tasks st ∧
  Server.workers st' = Server.workers st ∧
  length (Server.queues st') = length (Server.queues st) ∧
  ∀ sid' e',
    Server.tasks st !! sid' = Some e' →
    sid' ≠ Server.eio_sid_from_sid sid Server.DATA_NAMESPACE →
    Server.queues st' !! Server.q (Server.task e') =
    Server.queues st !! Server.q (Server.task e').
Proof.
  intros [_ Hinj]. unfold Server.image_callback.
  destruct (Server.tasks st !! _) as [e|] eqn:He; [|done].
  destruct (Server.data_timestamp data); [|done].
  destruct (Server.data_frame data); [|done]. simpl.
  split_and!; [done|done|by rewrite length_alter|].
  intros sid' e' He' Hne.
  rewrite list_lookup_alter_ne; [done|].
  destruct (Hinj _ _ _ _ He' He Hne) as [Hq _]. congruence.
Qed.

(** X10: an image message of a registered session that lacks its
    "timestamp", or else its "frame", makes the callback raise KeyError
    for that key; nothing is stored, nothing is sent back, the state is
    untouched. *)
Theorem image_without_key_raises st sid data now e :
  Server.tasks st !! Server.eio_sid_from_sid sid Server.DATA_NAMESPACE = Some e →
  Server.data_timestamp data = None ∨ Server.data_frame data = None →
  Server.image_callback st sid data now =
    (st, Raise (KeyError (match Server.data_timestamp data with
                          | None => "timestamp"
                          | Some _ => "frame"
                          end))).
Proof.
  intros He Hmissing. unfold Server.image_callback. rewrite He.
  destruct (Server.data_timestamp data); [|done].
  destruct Hmissing as [?| ->]; done.
Qed.

(** X11: disconnecting a registered session takes it, and only it, out
    of the registry and sets the stop event of its worker, and of no
    other worker; the heartbeat counts one session less; queues and
    outbox are untouched. *)
Theorem disconnect_removes_and_stops st sid e :
  Server.tasks st !! Server.get_eio_sid_of_data sid = Some e →
  let st' := Server.disconnect_callback st sid in
  Server.tasks st' !! Server.get_eio_sid_of_data sid = None ∧
  (∀ sid', sid' ≠ Server.get_eio_sid_of_data sid →
           Server.tasks st' !! sid' = Server.tasks st !! sid') ∧
  S (current_robot_count (Server.heart_beat st')) =
    current_robot_count (Server.heart_beat st) ∧
  Server.workers st' !! Server.worker e =
    CollisionWorker.stop <$> Server.workers st !! Server.worker e ∧
  (∀ j, j ≠ Server.worker e → Server.workers st' !! j = Server.workers st !! j) ∧
  Server.queues st' = Server.queues st ∧
  Server.outbox st' = Server.outbox st.
Proof.
  intros He. unfold Server.disconnect_callback. rewrite He. simpl.
  split_and!; try done.
  - apply lookup_delete_eq.
  - intros sid' Hne. by rewrite lookup_delete_ne.
  - rewrite <- (insert_delete_id (Server.tasks st) _ _ He) at 2.
    by rewrite map_size_insert_None by apply lookup_delete_eq.
  - apply list_lookup_alter_eq.
  - intros j Hne. by rewrite list_lookup_alter_ne.
Qed.

Lemma disconnect_callback_unknown st sid :
  Server.tasks st !! Server.get_eio_sid_of_data sid = None →
  Server.disconnect_callback st sid = st.
Proof. intros Hn. unfold Server.disconnect_callback. by rewrite Hn. Qed.

(** X12: disconnecting is safe to repeat and safe without a session: for
    a session id that is not in the registry the callback changes
    nothing, and a second disconnect of the same sid changes nothing
    after the first. *)
Theorem disconnect_again_changes_nothing st sid :
  (Server.tasks st !! Server.get_eio_sid_of_data sid = None →
   Server.disconnect_callback st sid = st) ∧
  Server.disconnect_callback (Server.disconnect_callback st sid) sid =
    Server.disconnect_callback st sid.
Proof.
  split; [apply disconnect_callback_unknown|].
  apply disconnect_callback_unknown, disconnect_callback_removes.
Qed.

End ServerCallbacks.

(** * Initialization on class Server *)
Section ServerInitialization.
Context `{HB : Server.Base}.
Import Sessions.

Implicit Types (st : Server.state).

Lemma command_callback_success st c sid t0 polls w :
  cmd_type c = INIT →
  Server.tasks st !! Server.get_eio_sid_of_control sid = None →
  Server.new_worker (length (Server.queues st))
    (default ∅ (data c ≫= arg_config))
    (default no_options (data c ≫= arg_camera_config))
    (default (Q2Qc 30) (data c ≫= arg_fps))
    (default true (data c ≫= arg_viz))
    (default 5558 (data c ≫= arg_viz_zmq_port))
    ("Collision Worker " +:+ Server.get_eio_sid_of_control sid) = Ok w →
  await_alive t0 polls = Some true →
  Server.command_callback st (Some c) sid t0 polls =
    Some (Server.mk
            (<[Server.get_eio_sid_of_control sid :=
                 {| Server.task := {| Server.q := length (Server.queues st) |};
                    Server.worker := length (Server.workers st) |}]> (Server.tasks st))
            (Server.queues st ++ [{| maxsize := Server.NETAPP_INPUT_QUEUE; items := [] |}])
            (Server.workers st ++ [CollisionWorker.start w])
            (Server.outbox st),
          (true, Server.applied (Server.get_eio_sid_of_control sid) sid (Some c))).
Proof.
  intros Hc Hn Hw Ha. unfold Server.command_callback.
  rewrite decide_True by done.
  rewrite decide_False by (rewrite Hn; by intros [? ?]).
  simpl. rewrite Hw, Ha. simpl.
  rewrite <- (Nat.add_0_r (length (Server.workers st))) at 2.
  by rewrite (alter_app_r CollisionWorker.start (Server.workers st) [w] 0).
Qed.

(** X13: a first INIT for a session whose worker can be built and is
    seen alive in time answers [True] and registers the session with a
    new, empty queue of the configured capacity and the new worker,
    started; the heartbeat counts one session more; the entries of all
    other sessions, the existing queues and workers and the outbox are
    as before. *)
Theorem initialization_registers st c sid t0 polls w :
  cmd_type c = INIT →
  Server.tasks st !! Server.get_eio_sid_of_control sid = None →
  Server.new_worker (length (Server.queues st))
    (default ∅ (data c ≫= arg_config))
    (default no_options (data c ≫= arg_camera_config))
    (default (Q2Qc 30) (data c ≫= arg_fps))
    (default true (data c ≫= arg_viz))
    (default 5558 (data c ≫= arg_viz_zmq_port))
    ("Collision Worker " +:+ Server.get_eio_sid_of_control sid) = Ok w →
  await_alive t0 polls = Some true →
  ∃ st' message e,
    Server.command_callback st (Some c) sid t0 polls = Some (st', (true, message)) ∧
    Server.tasks st' !! Server.get_eio_sid_of_control sid = Some e ∧
    Server.queues st' !! Server.q (Server.task e) =
      Some {| maxsize := Server.NETAPP_INPUT_QUEUE; items := [] |} ∧
    Server.workers st' !! Server.worker e = Some (CollisionWorker.start w) ∧
    current_robot_count (Server.heart_beat st') =
      S (current_robot_count (Server.heart_beat st)) ∧
    (∀ sid', sid' ≠ Server.get_eio_sid_of_control sid →
             Server.tasks st' !! sid' = Server.tasks st !! sid') ∧
    (∀ i qu, Server.queues st !! i = Some qu → Server.queues st' !! i = Some qu) ∧
    (∀ i w', Server.workers st !! i = Some w' → Server.workers st' !! i = Some w') ∧
    Server.outbox st' = Server.outbox st.
Proof.
  intros Hc Hn Hw Ha.
  do 3 eexists. split; [by apply command_callback_success|]. simpl.
  split_and!.
  - apply lookup_insert_eq.
  - simpl. by rewrite lookup_app_r, Nat.sub_diag.
  - simpl. by rewrite lookup_app_r, Nat.sub_diag.
  - by apply map_size_insert_None.
  - intros sid' Hne. by rewrite lookup_insert_ne.
  - intros i qu Hi. by apply lookup_app_l_Some.
  - intros i w' Hi. by apply lookup_app_l_Some.
  - done.
Qed.

(** X14: when the worker cannot be built, INIT answers [False] with the
    message "Failed to create CollisionWorker: ..." and sends the same
    text as a command error to the caller, without waiting for anything;
    no session is registered and no worker is added. *)
Theorem construction_failure_registers_nothing st c sid t0 polls ex :
  cmd_type c = INIT →
  Server.tasks st !! Server.get_eio_sid_of_control sid = None →
  Server.new_worker (length (Server.queues st))
    (default ∅ (data c ≫= arg_config))
    (default no_options (data c ≫= arg_camera_config))
    (default (Q2Qc 30) (data c ≫= arg_fps))
    (default true (data c ≫= arg_viz))
    (default 5558 (data c ≫= arg_viz_zmq_port))
    ("Collision Worker " +:+ Server.get_eio_sid_of_control sid) = Raise ex →
  ∃ st',
    Server.command_callback st (Some c) sid t0 polls =
      Some (st', (false, "Failed to create CollisionWorker: " +:+ Server.repr ex)) ∧
    Server.tasks st' = Server.tasks st ∧
    Server.workers st' = Server.workers st ∧
    Server.outbox st' =
      Server.outbox st ++
      [Server.send_command_error
         ("Failed to create CollisionWorker: " +:+ Server.repr ex) sid].
Proof.
  intros Hc Hn Hw. unfold Server.command_callback.
  rewrite decide_True by done.
  rewrite decide_False by (rewrite Hn; by intros [? ?]).
  simpl. rewrite Hw. by eexists.
Qed.

(** X15: a session that was disconnected can be initialized again, and
    gets a fresh worker.  In a sound state, after the disconnect of a
    registered session an INIT for the same session id succeeds; the
    session is then bound to a queue and a worker that are not the ones
    it had, and the worker it had stays behind with its stop event
    set. *)
Theorem initialization_after_disconnect st sid_data sid c t0 polls w e :
  server_sound st →
  Server.get_eio_sid_of_data sid_data = Server.get_eio_sid_of_control sid →
  Server.tasks st !! Server.get_eio_sid_of_control sid = Some e →
  cmd_type c = INIT →
  Server.new_worker (length (Server.queues st))
    (default ∅ (data c ≫= arg_config))
    (default no_options (data c ≫= arg_camera_config))
    (default (Q2Qc 30) (data c ≫= arg_fps))
    (default true (data c ≫= arg_viz))
    (default 5558 (data c ≫= arg_viz_zmq_port))
    ("Collision Worker " +:+ Server.get_eio_sid_of_control sid) = Ok w →
  await_alive t0 polls = Some true →
  ∃ st' message e',
    Server.command_callback (Server.disconnect_callback st sid_data) (Some c) sid t0 polls =
      Some (st', (true, message)) ∧
    Server.tasks st' !! Server.get_eio_sid_of_control sid = Some e' ∧
    Server.q (Server.task e') ≠ Server.q (Server.task e) ∧
    Server.worker e' ≠ Server.worker e ∧
    Server.workers st' !! Server.worker e' = Some (CollisionWorker.start w) ∧
    (∃ old, Server.workers st' !! Server.worker e = Some old ∧
            CollisionWorker.stop_event old = true).
Proof.
  intros [Hrefs _] Heio He Hc Hw Ha.
  destruct (Hrefs _ _ He) as [Hq (old & Hold & _)].
  pose proof (lookup_lt_Some _ _ _ Hold) as Hlt.
  assert (Server.disconnect_callback st sid_data =
          Server.mk (delete (Server.get_eio_sid_of_control sid) (Server.tasks st))
            (Server.queues st)
            (alter CollisionWorker.stop (Server.worker e) (Server.workers st))
            (Server.outbox st)) as Hd.
  { unfold Server.disconnect_callback. by rewrite Heio, He. }
  rewrite Hd. clear Hd.
  do 3 eexists. split.
  { apply command_callback_success; [done| |exact Hw|done].
    apply lookup_delete_eq. }
  simpl. rewrite length_alter.
  split_and!.
  - apply lookup_insert_eq.
  - simpl. lia.
  - simpl. lia.
  - simpl. rewrite lookup_app_r by (rewrite length_alter; lia).
    by rewrite length_alter, Nat.sub_diag.
  - exists (CollisionWorker.stop old). split; [|done].
    rewrite lookup_app_l by (by rewrite length_alter).
    by rewrite list_lookup_alter_eq, Hold.
Qed.

End ServerInitialization.

(** * The registry of the socketio interface over time *)
Section WebsocketSessions.
Context `{HW : Websocket.Base}.
Import Sessions.

Implicit Types (st : Websocket.state).

Lemma websocket_sound_start : websocket_sound websocket_start.
Proof. split; intros *; simpl; by rewrite lookup_empty. Qed.

(** Soundness only depends on registry and workers, and on there being
    at least as many queues as before. *)
Lemma websocket_sound_frame st st' :
  Websocket.tasks st' = Websocket.tasks st →
  Websocket.workers st' = Websocket.workers st →
  (length (Websocket.queues st) ≤ length (Websocket.queues st'))%nat →
  websocket_sound st → websocket_sound st'.
Proof.
  intros Ht Hw Hlen [Hrefs Hinj]. split; rewrite Ht; [|done].
  intros sid e He. destruct (Hrefs sid e He) as (Hsid & Hq & Hworker).
  rewrite Hw. split_and!; [done|lia|done].
Qed.

Lemma websocket_sound_register st eio_sid decoder qu w last outbox :
  CollisionWorker.image_queue w = length (Websocket.queues st) →
  CollisionWorker.stop_event w = false →
  websocket_sound st →
  websocket_sound
    (Websocket.mk
       (<[eio_sid := {| Websocket.task :=
                          {| Websocket.sid := eio_sid;
                             Websocket.q := length (Websocket.queues st);
                             Websocket.decoder := decoder |};
                        Websocket.worker := length (Websocket.workers st) |}]>
          (Websocket.tasks st))
       last
       (Websocket.queues st ++ [qu])
       (Websocket.workers st ++ [CollisionWorker.start w]) outbox).
Proof.
  intros Hqueue Hstop [Hrefs Hinj]. split; simpl.
  - intros sid e. destruct (decide (eio_sid = sid)) as [<-|Hne].
    + rewrite lookup_insert_eq. intros [= <-]. simpl.
      rewrite length_app. simpl. split_and!; [done|lia|].
      exists (CollisionWorker.start w).
      by rewrite lookup_app_r, Nat.sub_diag.
    + rewrite lookup_insert_ne by done. intros He.
      destruct (Hrefs sid e He) as (Hsid & Hq & w' & Hw' & Hrest).
      rewrite length_app. split_and!; [done|lia|].
      exists w'. split; [|done].
      rewrite lookup_app_l; [done|]. by eapply lookup_lt_Some.
  - intros sid1 sid2 e1 e2.
    destruct (decide (eio_sid = sid1)) as [<-|Hne1];
      destruct (decide (eio_sid = sid2)) as [<-|Hne2].
    + done.
    + rewrite lookup_insert_eq, lookup_insert_ne by done.
      intros [= <-] He2 _. simpl.
      destruct (Hrefs sid2 e2 He2) as (_ & Hq & w' & Hw' & _).
      apply lookup_lt_Some in Hw'. lia.
    + rewrite lookup_insert_ne, lookup_insert_eq by done.
      intros He1 [= <-] _. simpl.
      destruct (Hrefs sid1 e1 He1) as (_ & Hq & w' & Hw' & _).
      apply lookup_lt_Some in Hw'. lia.
    + rewrite !lookup_insert_ne by done. apply Hinj.
Qed.

Lemma image_callback_websocket_frame st sid data now :
  let st' := Websocket.image_callback_websocket st sid data now in
  Websocket.tasks st' = Websocket.tasks st ∧
  Websocket.workers st' = Websocket.workers st ∧
  length (Websocket.queues st') = length (Websocket.queues st).
Proof.
  unfold Websocket.image_callback_websocket.
  destruct (Websocket.tasks st !! _) as [e|]; [|done].
  destruct (Websocket.data_frame data); [|done].
  case_bool_decide; [done|].
  destruct (Websocket.decoder _);
    [destruct (Websocket.decode_packet_data _ _)|destruct (Websocket.decode_image _)];
    simpl; by rewrite ?length_alter.
Qed.

Lemma command_callback_websocket_sound st sid command t0 polls st' r :
  websocket_sound st →
  Websocket.command_callback_websocket st sid command t0 polls = Some (st', r) →
  websocket_sound st'.
Proof.
  intros Hs. unfold Websocket.command_callback_websocket.
  destruct command as [c|e]; [|by intros [= <- _]].
  destruct (decide _); [|by intros [= <- _]].
  destruct (CollisionWorker.init _ _ _ _ _) as [w|e'] eqn:Hw; simpl.
  - apply init_Ok in Hw as (_ & _ & _ & Hstop & Hqueue & _).
    rewrite <- (Nat.add_0_r (length (Websocket.workers st))).
    rewrite (alter_app_r CollisionWorker.start (Websocket.workers st) [w] 0).
    rewrite Nat.add_0_r. simpl.
    destruct (await_alive t0 polls) as [[]|]; [| |done];
      intros [= <- _]; by apply websocket_sound_register.
  - intros [= <- _].
    apply (websocket_sound_frame st); [done|done| |done].
    simpl. rewrite length_app. lia.
Qed.

Lemma disconnect_data_sound st sid :
  websocket_sound st → websocket_sound (Websocket.disconnect_data st sid).
Proof.
  intros [Hrefs Hinj]. unfold Websocket.disconnect_data.
  destruct (Websocket.tasks st !! _) as [e|] eqn:He; [|done].
  split; simpl.
  - intros sid' e' He'.
    apply lookup_delete_Some in He' as [Hne He'].
    destruct (Hrefs sid' e' He') as (Hsid & Hq & w' & Hw' & Hrest).
    split_and!; [done|done|]. exists w'. split; [|done].
    rewrite list_lookup_alter_ne; [done|].
    by destruct (Hinj _ _ _ _ He He' Hne).
  - intros sid1 sid2 e1 e2 He1 He2.
    apply lookup_delete_Some in He1 as [_ He1].
    apply lookup_delete_Some in He2 as [_ He2].
    by apply Hinj.
Qed.

Lemma websocket_handle_sound st c st' :
  websocket_sound st → Websocket.handle st c = Some st' → websocket_sound st'.
Proof.
  intros Hs. destruct c as [sid data now|sid command t0 polls|sid|i]; simpl.
  - intros [= <-].
    destruct (image_callback_websocket_frame st sid data now) as (Ht & Hw & Hl).
    apply (websocket_sound_frame st); [done|done|lia|done].
  - destruct (Websocket.command_callback_websocket _ _ _ _ _)
      as [[st1 r]|] eqn:Hc; [|done].
    intros [= <-]. by eapply command_callback_websocket_sound.
  - intros [= <-]. by apply disconnect_data_sound.
  - intros [= <-]. apply (websocket_sound_frame st); [done|done| |done].
    simpl. by rewrite length_alter.
Qed.

Lemma websocket_reachable_sound st :
  rtc Websocket.step websocket_start st → websocket_sound st.
Proof.
  revert st. apply (rtc_ind_r websocket_sound websocket_start).
  - apply websocket_sound_start.
  - intros st1 st2 _ [c Hc] IH. by eapply websocket_handle_sound.
Qed.

(** X16: whatever handlers and worker reads have happened since the
    module was loaded, every session of the registry of the socketio
    interface has a task carrying its id, a queue of its own and a
    worker of its own that reads that very queue, has been started and
    has not been told to stop; no two sessions share a queue or a
    worker. *)
Theorem websocket_sessions_are_separate st :
  rtc Websocket.step websocket_start st →
  (∀ sid e, Websocket.tasks st !! sid = Some e →
     Websocket.sid (Websocket.task e) = sid ∧
     (Websocket.q (Websocket.task e) < length (Websocket.queues st))%nat ∧
     ∃ w, Websocket.workers st !! Websocket.worker e = Some w ∧
          CollisionWorker.image_queue w = Websocket.q (Websocket.task e) ∧
          CollisionWorker.started w = true ∧
          CollisionWorker.stop_event w = false) ∧
  (∀ sid1 sid2 e1 e2,
     Websocket.tasks st !! sid1 = Some e1 → Websocket.tasks st !! sid2 = Some e2 →
     sid1 ≠ sid2 →
     Websocket.q (Websocket.task e1) ≠ Websocket.q (Websocket.task e2) ∧
     Websocket.worker e1 ≠ Websocket.worker e2).
Proof. apply websocket_reachable_sound. Qed.

End WebsocketSessions.

(** * Handlers of the socketio interface, one at a time *)
Section WebsocketHandlers.
Context `{HW : Websocket.Base}.
Import Sessions.

Implicit Types (st : Websocket.state).

Lemma command_callback_websocket_raises st sid c t0 polls e :
  cmd_type c = SET_STATE →
  CollisionWorker.init (length (Websocket.queues st))
    (default ∅ (data c ≫= arg_config))
    (default no_options (data c ≫= arg_camera_config))
    (default (Q2Qc 30) (data c ≫= arg_fps))
    ("Detector " +:+ Websocket.eio_sid_from_sid sid "/control") = Raise e →
  Websocket.command_callback_websocket st sid (Ok c) t0 polls =
    Some (Websocket.mk (Websocket.tasks st) (Websocket.last_timestamp st)
            (Websocket.queues st ++ [{| maxsize := Websocket.NETAPP_INPUT_QUEUE; items := [] |}])
            (Websocket.workers st) (Websocket.outbox st),
          Raise e).
Proof.
  intros Hc Hw. unfold Websocket.command_callback_websocket.
  rewrite decide_True by done. simpl. by rewrite Hw.
Qed.

Lemma init_fps_zero image_queue config camera_config name :
  ∃ e, CollisionWorker.init image_queue config camera_config 0%Qc name = Raise e.
Proof.
  unfold CollisionWorker.init, mbind, outcome_bind.
  destruct (Detector_from_dict _); [|by eexists].
  destruct (Sort_from_dict _); [|by eexists].
  destruct (Guard_from_dict _); [|by eexists].
  rewrite decide_True by done. by eexists.
Qed.

(** X17: a SET_STATE command asking for a frame rate of zero never
    registers a session: whatever else it carries, the handler ends in
    the exception of the worker's constructor, without waiting for any
    worker, and registry, workers and outbox are what they were. *)
Theorem zero_fps_registers_nothing st sid c t0 polls :
  cmd_type c = SET_STATE →
  data c ≫= arg_fps = Some 0%Qc →
  ∃ st' e,
    Websocket.command_callback_websocket st sid (Ok c) t0 polls = Some (st', Raise e) ∧
    Websocket.tasks st' = Websocket.tasks st ∧
    Websocket.workers st' = Websocket.workers st ∧
    Websocket.outbox st' = Websocket.outbox st.
Proof.
  intros Hc Hfps.
  destruct (init_fps_zero (length (Websocket.queues st))
              (default ∅ (data c ≫= arg_config))
              (default no_options (data c ≫= arg_camera_config))
              ("Detector " +:+ Websocket.eio_sid_from_sid sid "/control")) as [e He].
  do 2 eexists. split.
  - apply command_callback_websocket_raises; [done|]. rewrite Hfps. exact He.
  - done.
Qed.

(** X18: a frame that passes the timestamp check but cannot be decoded
    is answered with an image_error and is not stored, yet its timestamp
    has become the last accepted one: older frames are refused from then
    on although the frame itself never reached a queue. *)
Theorem undecodable_frame_moves_last_timestamp st sid data now e frame error :
  Websocket.tasks st !! Websocket.eio_sid_from_sid sid "/data" = Some e →
  Websocket.data_frame data = Some frame →
  Websocket.last_timestamp st ≤ default 0 (Websocket.data_timestamp data) →
  match Websocket.decoder (Websocket.task e) with
  | Some d => Websocket.decode_packet_data d frame
  | None => Websocket.decode_image frame
  end = Raise error →
  let timestamp := default 0 (Websocket.data_timestamp data) in
  let st' := Websocket.image_callback_websocket st sid data now in
  Websocket.queues st' = Websocket.queues st ∧
  Websocket.last_timestamp st' = timestamp ∧
  Websocket.outbox st' =
    Websocket.outbox st ++
    [Websocket.image_error timestamp
       ("Failed to decode frame data: " +:+ Websocket.str error) sid] ∧
  ∀ sid' data' now',
    default 0 (Websocket.data_timestamp data') < timestamp →
    Websocket.queues (Websocket.image_callback_websocket st' sid' data' now') =
    Websocket.queues st.
Proof.
  intros He Hf Hle Hdec timestamp st'.
  assert (st' = Websocket.emit
            (Websocket.image_error timestamp
               ("Failed to decode frame data: " +:+ Websocket.str error) sid)
            (Websocket.mk (Websocket.tasks st) timestamp (Websocket.queues st)
               (Websocket.workers st) (Websocket.outbox st))) as ->.
  { unfold st', Websocket.image_callback_websocket. rewrite He, Hf.
    rewrite bool_decide_eq_false_2 by (fold timestamp; lia).
    by rewrite Hdec. }
  split_and!; [done|done|done|].
  intros sid' data' now' Hlt.
  edestruct (image_callback_websocket_stale) as (err & -> & _); [|done].
  exact Hlt.
Qed.

(** X19: on the socketio interface, too, a frame only ever reaches the
    queue of the session that sent it: the handler leaves registry and
    workers alone and keeps the number of queues, and, the registry
    being sound, the queue of every other session is after the call what
    it was before. *)
Theorem websocket_frame_reaches_own_queue_only st sid data now :
  websocket_sound st →
  let st' := Websocket.image_callback_websocket st sid data now in
  Websocket.tasks st' = Websocket.tasks st ∧
  Websocket.workers st' = Websocket.workers st ∧
  length (Websocket.queues st') = length (Websocket.queues st) ∧
  ∀ sid' e',
    Websocket.tasks st !! sid' = Some e' →
    sid' ≠ Websocket.eio_sid_from_sid sid "/data" →
    Websocket.queues st' !! Websocket.q (Websocket.task e') =
    Websocket.queues st !! Websocket.q (Websocket.task e').
Proof.
  intros [_ Hinj] st'.
  destruct (image_callback_websocket_frame st sid data now) as (Ht & Hw & Hl).
  split_and!; [done|done|done|].
  intros sid' e' He' Hne. unfold st', Websocket.image_callback_websocket.
  destruct (Websocket.tasks st !! Websocket.eio_sid_from_sid sid "/data")
    as [e|] eqn:He; [|done].
  destruct (Websocket.data_frame data); [|done].
  case_bool_decide; [done|].
  destruct (Websocket.decoder _);
    [destruct (Websocket.decode_packet_data _ _)|destruct (Websocket.decode_image _)];
    simpl; try done;
    (rewrite list_lookup_alter_ne; [done|];
     destruct (Hinj _ _ _ _ He' He Hne) as [Hq _]; congruence).
Qed.

(** X20: the timestamp of an image message is optional only until a
    frame with a positive timestamp has been accepted.  A message
    without timestamp is handled as one with timestamp 0, so with a
    positive last accepted timestamp it is answered with an image_error
    carrying timestamp 0 and nothing but the outbox changes. *)
Theorem frame_without_timestamp_refused st sid data now :
  Websocket.data_timestamp data = None →
  0 < Websocket.last_timestamp st →
  ∃ error,
    Websocket.image_callback_websocket st sid data now =
      Websocket.emit (Websocket.image_error 0 error sid) st.
Proof.
  intros Hn Hpos.
  destruct (image_callback_websocket_stale st sid data now) as (error & Hr & _).
  - by rewrite Hn.
  - exists error. by rewrite Hn in Hr.
Qed.

(** X21: a session gets an H264 decoder exactly when its SET_STATE
    command asks for h264, built from the frame rate, width and height
    of the command, with 30, 0 and 0 for the ones it leaves out. *)
Theorem decoder_follows_h264 st sid c t0 polls st' r e :
  cmd_type c = SET_STATE →
  Websocket.command_callback_websocket st sid (Ok c) t0 polls = Some (st', r) →
  Websocket.tasks st' !! Websocket.eio_sid_from_sid sid "/control" = Some e →
  Websocket.tasks st !! Websocket.eio_sid_from_sid sid "/control" ≠ Some e →
  Websocket.decoder (Websocket.task e) =
    if default false (data c ≫= arg_h264)
    then Some (Websocket.new_H264Decoder
                 (default (Q2Qc 30) (data c ≫= arg_fps))
                 (default 0 (data c ≫= arg_width))
                 (default 0 (data c ≫= arg_height)))
    else None.
Proof.
  intros Hc. unfold Websocket.command_callback_websocket.
  rewrite decide_True by done. simpl.
  destruct (CollisionWorker.init _ _ _ _ _) as [w|ex]; simpl.
  - destruct (await_alive t0 polls) as [[]|]; [| |done];
      intros [= <- _]; simpl; rewrite lookup_insert_eq; by intros [= <-].
  - intros [= <- _]. simpl. congruence.
Qed.

(** X22: disconnecting one session never stops the worker of another.
    In a sound state, after [disconnect_data] the session is gone and
    every session still registered has its worker started with the stop
    event clear, while the worker of the session that left has its stop
    event set. *)
Theorem disconnect_data_spares_others st sid :
  websocket_sound st →
  let st' := Websocket.disconnect_data st sid in
  Websocket.tasks st' !! Websocket.eio_sid_from_sid sid "/data" = None ∧
  (∀ sid', sid' ≠ Websocket.eio_sid_from_sid sid "/data" →
           Websocket.tasks st' !! sid' = Websocket.tasks st !! sid') ∧
  (∀ sid' e', Websocket.tasks st' !! sid' = Some e' →
     ∃ w, Websocket.workers st' !! Websocket.worker e' = Some w ∧
          CollisionWorker.started w = true ∧
          CollisionWorker.stop_event w = false) ∧
  (∀ e, Websocket.tasks st !! Websocket.eio_sid_from_sid sid "/data" = Some e →
     ∃ w, Websocket.workers st' !! Websocket.worker e = Some w ∧
          CollisionWorker.stop_event w = true).
Proof.
  intros Hs st'.
  pose proof (disconnect_data_sound st sid Hs) as [Hrefs' _].
  destruct Hs as [Hrefs _].
  split_and!.
  - unfold st', Websocket.disconnect_data.
    destruct (Websocket.tasks st !! _) eqn:He; simpl; [apply lookup_delete_eq|done].
  - intros sid' Hne. unfold st', Websocket.disconnect_data.
    destruct (Websocket.tasks st !! Websocket.eio_sid_from_sid sid "/data");
      simpl; [by rewrite lookup_delete_ne|done].
  - intros sid' e' He'.
    destruct (Hrefs' sid' e' He') as (_ & _ & w & Hw & _ & Hstarted & Hstop).
    by exists w.
  - intros e He. destruct (Hrefs _ _ He) as (_ & _ & w & Hw & _).
    exists (CollisionWorker.stop w). split; [|done].
    unfold st', Websocket.disconnect_data. rewrite He. simpl.
    by rewrite list_lookup_alter_eq, Hw.
Qed.

End WebsocketHandlers.
